(** * Request handlers of the Kademlia DHT node (handlers.go)

    A shallow embedding of the responder side of go-libp2p-kad-dht:
    the handlers for GET_VALUE, PUT_VALUE, FIND_NODE, GET_PROVIDERS,
    ADD_PROVIDER and PING, over the collaborators they call (datastore,
    validator, provider manager, peerstore, network, routing table).

    Go values are modelled as follows.
    - [[]byte] is [list byte]; a nil and an empty byte slice are not
      told apart (the handlers only use [len], [bytes.Equal] and
      conversions on them).
    - [string] is [string]; [string(b)] is [string_of_list_byte].
    - a slice of peer identifiers is [slice peer_ID], an optional list,
      because the handlers compare such slices with [nil].
    - a pair of results [(v, err)] is a pair whose second component is
      [option error], [None] standing for [nil].
    - the node [*IpfsDHT] and everything it reaches is threaded through
      the state monad [M]; every call of a collaborator that the handlers
      make is also appended to the field [calls]. *)

From Stdlib Require Import ZArith String Ascii List Bool Lia DecimalString.
From Stdlib.Strings Require Import Byte.
From stdpp Require Import base option list strings gmap.

Open Scope string_scope.
Open Scope list_scope.
Open Scope Z_scope.

(** ** Go basics *)

(** Conversions between [string] and [[]byte] are kept folded. *)
Arguments string_of_list_byte : simpl never.
Arguments list_byte_of_string : simpl never.

Definition bytes := list byte.

#[global] Instance byte_eq_decision : EqDecision byte := Byte.byte_eq_dec.

(** [bytes.Equal]. *)
Definition bytes_Equal (a b : bytes) : bool := bool_decide (a = b).

(** Errors.  [ds.ErrNotFound] is the one error value the handlers compare
    against; every other error is a value carrying its message. *)
Inductive error : Type :=
| ErrNotFound
| errors_New (msg : string).

#[global] Instance error_eq_decision : EqDecision error.
Proof. solve_decision. Defined.

(** [err == ds.ErrNotFound] and [err != nil]. *)
Definition isNotFound (err : option error) : bool :=
  match err with Some ErrNotFound => true | _ => false end.
Definition notNil (err : option error) : bool :=
  match err with Some _ => true | None => false end.

(** A Go slice that may be [nil]. *)
Definition slice (A : Type) : Type := option (list A).

Definition elems {A} (s : slice A) : list A := default [] s.

(** [len(s)]. *)
Definition len {A} (s : slice A) : Z := Z.of_nat (length (elems s)).

(** [append(s, x)]: never [nil]. *)
Definition append {A} (s : slice A) (x : A) : slice A := Some (elems s ++ [x]).

(** ** time *)

Definition Time := Z.       (* an instant, in nanoseconds *)
Definition Duration := Z.   (* an int64 count of nanoseconds *)

Definition maxDuration : Duration := 2 ^ 63 - 1.
Definition minDuration : Duration := - 2 ^ 63.

(** [t.Sub(u)], which saturates at the bounds of [Duration]. *)
Definition time_Sub (t u : Time) : Duration :=
  if t - u <? minDuration then minDuration
  else if maxDuration <? t - u then maxDuration
  else t - u.

(** ** Peers, addresses, connectivity *)

Definition peer_ID := string.
Definition Multiaddr := bytes.

(** [peer.ID(b)] and [[]byte(id)]. *)
Definition peer_ID_of_bytes (b : bytes) : peer_ID := string_of_list_byte b.

Module peer.
Record AddrInfo := mkAddrInfo { ID : peer_ID; Addrs : list Multiaddr }.
End peer.

Module network.
Inductive Connectedness := NotConnected | Connected | CanConnect | CannotConnect.
End network.

(** ** Records and messages (packages recpb and pb) *)

Module recpb.
Record Record := mkRecord {
  Key : bytes;
  Value : bytes;
  TimeReceived : string
}.
Definition GetKey := Key.
Definition GetValue := Value.
Definition GetTimeReceived := TimeReceived.
(** [rec.TimeReceived = t]. *)
Definition setTimeReceived (t : string) (rec : Record) : Record :=
  mkRecord (Key rec) (Value rec) t.
End recpb.

Module pb.
Inductive Message_MessageType :=
| Message_PUT_VALUE
| Message_GET_VALUE
| Message_ADD_PROVIDER
| Message_GET_PROVIDERS
| Message_FIND_NODE
| Message_PING
| Message_other (n : Z).

Record Message_Peer := mkPeer {
  Id : bytes;
  PeerAddrs : list bytes;
  Connection : network.Connectedness
}.

Record Message := mkMessage {
  Typ : Message_MessageType;
  ClusterLevel : Z;
  Key : bytes;
  Record_ : option recpb.Record;
  CloserPeers : list Message_Peer;
  ProviderPeers : list Message_Peer
}.

Definition GetType := Typ.
Definition GetKey := Key.
Definition GetRecord := Record_.
Definition GetClusterLevel := ClusterLevel.
Definition GetProviderPeers := ProviderPeers.

(** Modelled from the spec: [pb.NewMessage], of package pb, whose
      source is not at hand.  It constructs a response envelope of a given
      type, key and cluster level; it carries no record and no peers. *)
Definition NewMessage (t : Message_MessageType) (key : bytes) (level : Z) : Message :=
  mkMessage t level key None [] [].

(** Field assignments on a message. *)
Definition setRecord (r : option recpb.Record) (m : Message) : Message :=
  mkMessage (Typ m) (ClusterLevel m) (Key m) r (CloserPeers m) (ProviderPeers m).
Definition setCloserPeers (ps : list Message_Peer) (m : Message) : Message :=
  mkMessage (Typ m) (ClusterLevel m) (Key m) (Record_ m) ps (ProviderPeers m).
Definition setProviderPeers (ps : list Message_Peer) (m : Message) : Message :=
  mkMessage (Typ m) (ClusterLevel m) (Key m) (Record_ m) (CloserPeers m) ps.
End pb.

(** ** Store keys and content identifiers *)

Module ds.
Record Key := mkKey { key_string : string }.
End ds.

Module cid.
Record Cid := mkCid { str : string }.
(** [c.Bytes()]. *)
Definition Bytes (c : Cid) : bytes := list_byte_of_string (str c).
End cid.

#[global] Instance ds_Key_eq_decision : EqDecision ds.Key.
Proof. solve_decision. Defined.
#[global] Instance cid_eq_decision : EqDecision cid.Cid.
Proof. solve_decision. Defined.

(** ** Collaborator interfaces *)

(** [ds.Datastore]: the four calls the handlers make.  A read leaves the
    store as it is; a write returns the store after the call. *)
Class Datastore (D : Type) := {
  ds_Get : D → ds.Key → bytes * option error;
  ds_Has : D → ds.Key → bool * option error;
  ds_Put : D → ds.Key → bytes → D * option error;
  ds_Delete : D → ds.Key → D * option error
}.

(** [providers.ProviderManager]. *)
Class ProviderManager (PM : Type) := {
  pm_GetProviders : PM → cid.Cid → list peer_ID;
  pm_AddProvider : PM → cid.Cid → peer_ID → PM
}.

(** [peerstore.Peerstore]. *)
Class Peerstore (PS : Type) := {
  ps_Addrs : PS → peer_ID → list Multiaddr;
  ps_AddAddrs : PS → peer_ID → list Multiaddr → Duration → PS
}.

(** [record.Validator]. *)
Module record.
Record Validator := mkValidator {
  Validate : string → bytes → option error;
  Select : string → list bytes → Z * option error
}.
End record.

(** Library functions and package-level values that handlers.go uses and
    that are declared elsewhere. *)
Class Libraries := {
  proto_Marshal : recpb.Record → bytes * option error;
  proto_Unmarshal : bytes → recpb.Record * option error;
  cid_Cast : bytes → cid.Cid * option error;
  base32_RawStdEncoding_EncodeToString : bytes → string;
  ds_NewKey : string → ds.Key;
  u_ParseRFC3339 : string → Time * option error;
  u_FormatRFC3339 : Time → string;
  (** package pb, both directions of the peer conversion *)
  PeerInfosToPBPeers :
    (peer_ID → network.Connectedness) → list peer.AddrInfo → list pb.Message_Peer;
  PBPeersToPeerInfos : list pb.Message_Peer → list peer.AddrInfo;
  MaxRecordAge : Duration;
  KValue : Z;
  ProviderAddrTTL : Duration
}.

(** The calls the handlers make on their collaborators, in order. *)
Inductive Call : Type :=
| CallGet (k : ds.Key)
| CallHas (k : ds.Key)
| CallPut (k : ds.Key) (data : bytes)
| CallDelete (k : ds.Key)
| CallGetProviders (c : cid.Cid)
| CallAddProvider (c : cid.Cid) (p : peer_ID)
| CallAddAddrs (p : peer_ID) (addrs : list Multiaddr) (ttl : Duration)
| CallBetterPeers (pmes : pb.Message) (p : peer_ID) (count : Z)
| CallLock (stripe : byte)
| CallUnlock (stripe : byte).

Definition isAddProvider (c : Call) : bool :=
  match c with CallAddProvider _ _ => true | _ => false end.
Definition isAddAddrs (c : Call) : bool :=
  match c with CallAddAddrs _ _ _ => true | _ => false end.

(** ** The node *)

(** [IpfsDHT]: the fields of the node that the handlers reach, the wall
    clock they read, and the log of the collaborator calls they made.
    [routingTable] stands for what [dht.betterPeersToQuery], a method
    defined outside handlers.go, answers from the routing table. *)
Record IpfsDHT (D PM PS : Type) := mkDHT {
  self : peer_ID;
  datastore : D;
  providers : PM;
  peerstore : PS;
  Validator : record.Validator;
  host_Connectedness : peer_ID → network.Connectedness;
  routingTable : pb.Message → peer_ID → Z → slice peer_ID;
  clock : Time;
  calls : list Call
}.

Arguments mkDHT {D PM PS}.
Arguments self {D PM PS}.
Arguments datastore {D PM PS}.
Arguments providers {D PM PS}.
Arguments peerstore {D PM PS}.
Arguments Validator {D PM PS}.
Arguments host_Connectedness {D PM PS}.
Arguments routingTable {D PM PS}.
Arguments clock {D PM PS}.
Arguments calls {D PM PS}.

Section Handlers.
Context {D PM PS : Type}.
Context `{!Datastore D, !ProviderManager PM, !Peerstore PS, !Libraries}.

Local Abbreviation DHT := (IpfsDHT D PM PS).

Definition set_datastore (x : D) (d : DHT) : DHT :=
  mkDHT (self d) x (providers d) (peerstore d) (Validator d)
        (host_Connectedness d) (routingTable d) (clock d) (calls d).
Definition set_providers (x : PM) (d : DHT) : DHT :=
  mkDHT (self d) (datastore d) x (peerstore d) (Validator d)
        (host_Connectedness d) (routingTable d) (clock d) (calls d).
Definition set_peerstore (x : PS) (d : DHT) : DHT :=
  mkDHT (self d) (datastore d) (providers d) x (Validator d)
        (host_Connectedness d) (routingTable d) (clock d) (calls d).
Definition logCall (c : Call) (d : DHT) : DHT :=
  mkDHT (self d) (datastore d) (providers d) (peerstore d) (Validator d)
        (host_Connectedness d) (routingTable d) (clock d) (calls d ++ [c]).

(** *** The monad of the handlers: state passing over the node *)

Definition M (A : Type) : Type := DHT → A * DHT.

#[global] Instance M_ret : MRet M := λ A a d, (a, d).
#[global] Instance M_bind : MBind M := λ A B f m d, f (m d).1 (m d).2.

Definition ask : M DHT := λ d, (d, d).

(** Calls on the collaborators. *)
Definition datastore_Get (k : ds.Key) : M (bytes * option error) :=
  λ d, (ds_Get (datastore d) k, logCall (CallGet k) d).
Definition datastore_Has (k : ds.Key) : M (bool * option error) :=
  λ d, (ds_Has (datastore d) k, logCall (CallHas k) d).
Definition datastore_Put (k : ds.Key) (data : bytes) : M (option error) :=
  λ d, let r := ds_Put (datastore d) k data in
       (r.2, logCall (CallPut k data) (set_datastore r.1 d)).
Definition datastore_Delete (k : ds.Key) : M (option error) :=
  λ d, let r := ds_Delete (datastore d) k in
       (r.2, logCall (CallDelete k) (set_datastore r.1 d)).
Definition providers_GetProviders (c : cid.Cid) : M (list peer_ID) :=
  λ d, (pm_GetProviders (providers d) c, logCall (CallGetProviders c) d).
Definition providers_AddProvider (c : cid.Cid) (p : peer_ID) : M unit :=
  λ d, (tt, logCall (CallAddProvider c p)
              (set_providers (pm_AddProvider (providers d) c p) d)).
Definition peerstore_AddAddrs (p : peer_ID) (addrs : list Multiaddr) (ttl : Duration)
  : M unit :=
  λ d, (tt, logCall (CallAddAddrs p addrs ttl)
              (set_peerstore (ps_AddAddrs (peerstore d) p addrs ttl) d)).
Definition betterPeersToQuery (pmes : pb.Message) (p : peer_ID) (count : Z)
  : M (slice peer_ID) :=
  λ d, (routingTable d pmes p count, logCall (CallBetterPeers pmes p count) d).

(** [time.Now()] and [time.Since(t)]. *)
Definition time_Now : M Time := λ d, (clock d, d).
Definition time_Since (t : Time) : M Duration := λ d, (time_Sub (clock d) t, d).

(** [lk.Lock(); defer lk.Unlock()] around the rest of a function. *)
Definition withLock {A} (stripe : byte) (body : M A) : M A :=
  λ d, let r := body (logCall (CallLock stripe) d) in
       (r.1, logCall (CallUnlock stripe) r.2).

(** [pstore.PeerInfos(ps, peers)]: each identifier with the addresses
    the peerstore knows for it. *)
Definition pstore_PeerInfos (ps : PS) (peers : list peer_ID) : list peer.AddrInfo :=
  map (λ p, peer.mkAddrInfo p (ps_Addrs ps p)) peers.

(** *** handlers.go *)

Definition CloserPeerCount : Z := KValue.

Definition convertToDsKey (s : bytes) : ds.Key :=
  ds_NewKey (base32_RawStdEncoding_EncodeToString s).

Definition checkLocalDatastore (k : bytes) : M (option recpb.Record * option error) :=
  let dskey := convertToDsKey k in
  '(buf, err) ← datastore_Get dskey;
  if isNotFound err then mret (None, None)
  else match err with
  | Some e => mret (None, Some e)
  | None =>
    let '(rec, err) := proto_Unmarshal buf in
    match err with
    | Some e => mret (None, Some e)
    | None =>
      let recordIsBad := false in
      let '(recvtime, err) := u_ParseRFC3339 (recpb.GetTimeReceived rec) in
      let recordIsBad := if notNil err then true else recordIsBad in
      age ← time_Since recvtime;
      let recordIsBad := if MaxRecordAge <? age then true else recordIsBad in
      if recordIsBad then
        _ ← datastore_Delete dskey;
        mret (None, None)
      else mret (Some rec, None)
    end
  end.

Definition handleGetValue (p : peer_ID) (pmes : pb.Message)
  : M (option pb.Message * option error) :=
  let resp := pb.NewMessage (pb.GetType pmes) (pb.GetKey pmes) (pb.GetClusterLevel pmes) in
  let k := pb.GetKey pmes in
  if bool_decide (length k = 0%nat) then
    mret (None, Some (errors_New "handleGetValue but no key was provided"))
  else
    '(rec, err) ← checkLocalDatastore k;
    match err with
    | Some e => mret (None, Some e)
    | None =>
      let resp := pb.setRecord rec resp in
      closer ← betterPeersToQuery pmes p CloserPeerCount;
      if 0 <? len closer then
        dht ← ask;
        let closerinfos := pstore_PeerInfos (peerstore dht) (elems closer) in
        mret (Some (pb.setCloserPeers
                      (PeerInfosToPBPeers (host_Connectedness dht) closerinfos) resp),
              None)
      else mret (Some resp, None)
    end.

(** Cleans the record (to avoid storing arbitrary data). *)
Definition cleanRecord (rec : recpb.Record) : recpb.Record :=
  recpb.setTimeReceived "" rec.

Definition getRecordFromDatastore (dskey : ds.Key)
  : M (option recpb.Record * option error) :=
  '(buf, err) ← datastore_Get dskey;
  if isNotFound err then mret (None, None)
  else match err with
  | Some e => mret (None, Some e)
  | None =>
    let '(rec, err) := proto_Unmarshal buf in
    match err with
    | Some _ => mret (None, None)
    | None =>
      dht ← ask;
      match record.Validate (Validator dht)
              (string_of_list_byte (recpb.GetKey rec)) (recpb.GetValue rec) with
      | Some _ => mret (None, None)
      | None => mret (Some rec, None)
      end
    end
  end.

(** The stripe of [dht.stripedPutLocks] a record key selects. *)
Definition indexForLock (key : bytes) : byte :=
  if bool_decide (length key = 0%nat) then x00 else List.last key x00.

(** [rec] points into [pmes]: what is assigned to the record's receipt
    time is seen through the message that the function returns. *)
Definition handlePutValue (p : peer_ID) (pmes : pb.Message)
  : M (option pb.Message * option error) :=
  match pb.GetRecord pmes with
  | None => mret (None, Some (errors_New "nil record"))
  | Some rec =>
    if negb (bytes_Equal (pb.GetKey pmes) (recpb.GetKey rec)) then
      mret (None, Some (errors_New "put key doesn't match record key"))
    else
      let rec := cleanRecord rec in
      dht ← ask;
      match record.Validate (Validator dht)
              (string_of_list_byte (recpb.GetKey rec)) (recpb.GetValue rec) with
      | Some e => mret (None, Some e)
      | None =>
        let dskey := convertToDsKey (recpb.GetKey rec) in
        withLock (indexForLock (recpb.GetKey rec)) (
          '(existing, err) ← getRecordFromDatastore dskey;
          match err with
          | Some e => mret (None, Some e)
          | None =>
            (* the statements after [if existing != nil { ... }] *)
            let persist : M (option pb.Message * option error) :=
              now ← time_Now;
              let rec := recpb.setTimeReceived (u_FormatRFC3339 now) rec in
              let pmes := pb.setRecord (Some rec) pmes in
              let '(data, err) := proto_Marshal rec in
              match err with
              | Some e => mret (None, Some e)
              | None =>
                err ← datastore_Put dskey data;
                mret (Some pmes, err)
              end in
            match existing with
            | Some existing =>
              let recs := [recpb.GetValue rec; recpb.GetValue existing] in
              let '(i, err) :=
                record.Select (Validator dht)
                  (string_of_list_byte (recpb.GetKey rec)) recs in
              match err with
              | Some e => mret (None, Some e)
              | None =>
                if negb (i =? 0) then mret (None, Some (errors_New "old record"))
                else persist
              end
            | None => persist
            end
          end)
      end
  end.

(** [handlePutValue] with the request message as the object that it is
    in Go.  [rec] is a pointer into [pmes], so [cleanRecord(rec)] and
    the later assignment to [rec.TimeReceived] change the caller's
    message in place, also when the function returns an error.  Beside
    what the function returns this gives the message as the call leaves
    it. *)
Definition handlePutValue_inPlace (p : peer_ID) (pmes : pb.Message)
  : M ((option pb.Message * option error) * pb.Message) :=
  match pb.GetRecord pmes with
  | None => mret ((None, Some (errors_New "nil record")), pmes)
  | Some rec =>
    if negb (bytes_Equal (pb.GetKey pmes) (recpb.GetKey rec)) then
      mret ((None, Some (errors_New "put key doesn't match record key")), pmes)
    else
      (* cleanRecord(rec), seen through pmes *)
      let rec := cleanRecord rec in
      let pmes := pb.setRecord (Some rec) pmes in
      dht ← ask;
      match record.Validate (Validator dht)
              (string_of_list_byte (recpb.GetKey rec)) (recpb.GetValue rec) with
      | Some e => mret ((None, Some e), pmes)
      | None =>
        let dskey := convertToDsKey (recpb.GetKey rec) in
        withLock (indexForLock (recpb.GetKey rec)) (
          '(existing, err) ← getRecordFromDatastore dskey;
          match err with
          | Some e => mret ((None, Some e), pmes)
          | None =>
            (* the statements after [if existing != nil { ... }] *)
            let persist : M ((option pb.Message * option error) * pb.Message) :=
              now ← time_Now;
              (* rec.TimeReceived = ..., seen through pmes *)
              let rec := recpb.setTimeReceived (u_FormatRFC3339 now) rec in
              let pmes := pb.setRecord (Some rec) pmes in
              let '(data, err) := proto_Marshal rec in
              match err with
              | Some e => mret ((None, Some e), pmes)
              | None =>
                err ← datastore_Put dskey data;
                mret ((Some pmes, err), pmes)
              end in
            match existing with
            | Some existing =>
              let recs := [recpb.GetValue rec; recpb.GetValue existing] in
              let '(i, err) :=
                record.Select (Validator dht)
                  (string_of_list_byte (recpb.GetKey rec)) recs in
              match err with
              | Some e => mret ((None, Some e), pmes)
              | None =>
                if negb (i =? 0) then
                  mret ((None, Some (errors_New "old record")), pmes)
                else persist
              end
            | None => persist
            end
          end)
      end
  end.

Definition handlePing (p : peer_ID) (pmes : pb.Message)
  : M (option pb.Message * option error) :=
  mret (Some pmes, None).

Definition handleFindPeer (p : peer_ID) (pmes : pb.Message)
  : M (option pb.Message * option error) :=
  dht ← ask;
  let resp := pb.NewMessage (pb.GetType pmes) [] (pb.GetClusterLevel pmes) in
  let targetPid := peer_ID_of_bytes (pb.GetKey pmes) in
  closest ←
    (if bool_decide (targetPid = self dht) then mret (Some [self dht])
     else
       closest ← betterPeersToQuery pmes p CloserPeerCount;
       if bool_decide (targetPid ≠ p) then
         match host_Connectedness dht targetPid with
         | network.Connected | network.CanConnect => mret (append closest targetPid)
         | _ => mret closest
         end
       else mret closest);
  match closest with
  | None => mret (Some resp, None)
  | Some closest =>
    let closestinfos := pstore_PeerInfos (peerstore dht) closest in
    let withAddresses :=
      List.filter (λ pi, (0 <? length (peer.Addrs pi))%nat) closestinfos in
    mret (Some (pb.setCloserPeers
                  (PeerInfosToPBPeers (host_Connectedness dht) withAddresses) resp),
          None)
  end.

Definition handleGetProviders (p : peer_ID) (pmes : pb.Message)
  : M (option pb.Message * option error) :=
  let resp := pb.NewMessage (pb.GetType pmes) (pb.GetKey pmes) (pb.GetClusterLevel pmes) in
  let '(c, err) := cid_Cast (pb.GetKey pmes) in
  match err with
  | Some e => mret (None, Some e)
  | None =>
    '(has, err) ← datastore_Has (convertToDsKey (cid.Bytes c));
    let has :=
      if notNil err && negb (isNotFound err) then false else has in
    providers ← providers_GetProviders c;
    dht ← ask;
    let providers := if has then providers ++ [self dht] else providers in
    let resp :=
      if (0 <? length providers)%nat then
        let infos := pstore_PeerInfos (peerstore dht) providers in
        pb.setProviderPeers (PeerInfosToPBPeers (host_Connectedness dht) infos) resp
      else resp in
    closer ← betterPeersToQuery pmes p CloserPeerCount;
    let resp :=
      match closer with
      | Some closer =>
        let infos := pstore_PeerInfos (peerstore dht) closer in
        pb.setCloserPeers (PeerInfosToPBPeers (host_Connectedness dht) infos) resp
      | None => resp
      end in
    mret (Some resp, None)
  end.

(** [for _, x := range l { body }], where [continue] ends one round. *)
Fixpoint forRange {A} (l : list A) (body : A → M unit) : M unit :=
  match l with
  | [] => mret tt
  | x :: l' => _ ← body x; forRange l' body
  end.

Definition handleAddProvider (p : peer_ID) (pmes : pb.Message)
  : M (option pb.Message * option error) :=
  let '(c, err) := cid_Cast (pb.GetKey pmes) in
  match err with
  | Some e => mret (None, Some e)
  | None =>
    let pinfos := PBPeersToPeerInfos (pb.GetProviderPeers pmes) in
    _ ← forRange pinfos (λ pi,
          if bool_decide (peer.ID pi ≠ p) then mret tt
          else if (length (peer.Addrs pi) <? 1)%nat then mret tt
          else
            dht ← ask;
            _ ← (if bool_decide (peer.ID pi ≠ self dht)
                 then peerstore_AddAddrs (peer.ID pi) (peer.Addrs pi) ProviderAddrTTL
                 else mret tt);
            providers_AddProvider c p);
    mret (None, None)
  end.

Definition dhtHandler : Type := peer_ID → pb.Message → M (option pb.Message * option error).

Definition handlerForMsgType (t : pb.Message_MessageType) : option dhtHandler :=
  match t with
  | pb.Message_GET_VALUE => Some handleGetValue
  | pb.Message_PUT_VALUE => Some handlePutValue
  | pb.Message_FIND_NODE => Some handleFindPeer
  | pb.Message_ADD_PROVIDER => Some handleAddProvider
  | pb.Message_GET_PROVIDERS => Some handleGetProviders
  | pb.Message_PING => Some handlePing
  | pb.Message_other _ => None
  end.

End Handlers.

(** ** Vocabulary of the properties *)

Section Vocabulary.
Context {D PM PS : Type}.
Context `{!Datastore D, !ProviderManager PM, !Peerstore PS, !Libraries}.

Implicit Types (d : IpfsDHT D PM PS) (p : peer_ID) (pmes : pb.Message).

(** The calls made between a node state and a later one. *)
Definition newCalls d d' : list Call :=
  drop (length (calls d)) (calls d').

(** A record is stored under [dskey] and is currently valid: the bytes
    there deserialize, and the validator accepts the result. *)
Definition validExisting d (dskey : ds.Key) existing : Prop :=
  ∃ buf, ds_Get (datastore d) dskey = (buf, None) ∧
         proto_Unmarshal buf = (existing, None) ∧
         record.Validate (Validator d)
           (string_of_list_byte (recpb.GetKey existing)) (recpb.GetValue existing) = None.

(** The connectivity oracle reports a peer as connected or connectable. *)
Definition connectable (c : network.Connectedness) : bool :=
  match c with
  | network.Connected | network.CanConnect => true
  | _ => false
  end.

(** The response of FIND_NODE to an answer set: none when the set is
    [nil]; otherwise the peers of the set that have an address, in wire
    form. *)
Definition findPeerResponse d pmes (closest : slice peer_ID) : pb.Message :=
  let resp := pb.NewMessage (pb.GetType pmes) [] (pb.GetClusterLevel pmes) in
  match closest with
  | None => resp
  | Some l =>
    pb.setCloserPeers
      (PeerInfosToPBPeers (host_Connectedness d)
         (List.filter (λ pi, (0 <? length (peer.Addrs pi))%nat)
                      (pstore_PeerInfos (peerstore d) l)))
      resp
  end.

(** A provider record of an ADD_PROVIDER request passes both checks: it
    names the requesting peer and carries an address. *)
Definition announces p (pi : peer.AddrInfo) : bool :=
  bool_decide (peer.ID pi = p) && (1 <=? length (peer.Addrs pi))%nat.

(** What a record that passes both checks causes: the addresses of a
    peer other than this node go to the peerstore, and the provider
    manager learns that [p] provides [c]. *)
Definition acceptProvider (c : cid.Cid) p (pi : peer.AddrInfo) : @M D PM PS unit :=
  dht ← ask;
  _ ← (if bool_decide (peer.ID pi ≠ self dht)
       then peerstore_AddAddrs (peer.ID pi) (peer.Addrs pi) ProviderAddrTTL
       else mret tt);
  providers_AddProvider c p.

(** The node when its clock shows [t]. *)
Definition set_clock (t : Time) d : IpfsDHT D PM PS :=
  mkDHT (self d) (datastore d) (providers d) (peerstore d) (Validator d)
        (host_Connectedness d) (routingTable d) t (calls d).

(** The wire form of peers, each with the addresses the peerstore has for
    it, none left out. *)
Definition wirePeers d (peers : list peer_ID) : list pb.Message_Peer :=
  PeerInfosToPBPeers (host_Connectedness d) (pstore_PeerInfos (peerstore d) peers).

(** The record as [handlePutValue] writes it on node [d]: with the
    node's time as its receipt time. *)
Definition stamped d (rec : recpb.Record) : recpb.Record :=
  recpb.setTimeReceived (u_FormatRFC3339 (clock d)) rec.

End Vocabulary.

(** ** A concrete node: in-memory collaborators

    Used to run the handlers on concrete requests. *)

Module mem.

(** An in-memory datastore in the manner of [ds.MapDatastore], with
    switches that make a kind of call fail. *)
Record MapDatastore := mkMap {
  values : gmap string bytes;
  failGet : option error;
  failHas : option error;
  failPut : option error;
  failDelete : option error
}.

#[global] Instance MapDatastore_Datastore : Datastore MapDatastore := {
  ds_Get d k :=
    match failGet d with
    | Some e => ([], Some e)
    | None =>
      match values d !! ds.key_string k with
      | Some v => (v, None)
      | None => ([], Some ErrNotFound)
      end
    end;
  ds_Has d k :=
    match failHas d with
    | Some e => (false, Some e)
    | None => (bool_decide (is_Some (values d !! ds.key_string k)), None)
    end;
  ds_Put d k v :=
    match failPut d with
    | Some e => (d, Some e)
    | None =>
      (mkMap (<[ds.key_string k := v]> (values d))
             (failGet d) (failHas d) (failPut d) (failDelete d), None)
    end;
  ds_Delete d k :=
    match failDelete d with
    | Some e => (d, Some e)
    | None =>
      (mkMap (delete (ds.key_string k) (values d))
             (failGet d) (failHas d) (failPut d) (failDelete d), None)
    end
}.

(** Providers per content identifier, in order of announcement. *)
#[global] Instance providers_ProviderManager : ProviderManager (gmap string (list peer_ID)) := {
  pm_GetProviders m c := default [] (m !! cid.str c);
  pm_AddProvider m c p :=
    let old := default [] (m !! cid.str c) in
    if bool_decide (p ∈ old) then m else <[cid.str c := old ++ [p]]> m
}.

(** Addresses per peer; expiry is not modelled. *)
#[global] Instance addrs_Peerstore : Peerstore (gmap string (list Multiaddr)) := {
  ps_Addrs m p := default [] (m !! p);
  ps_AddAddrs m p addrs ttl := <[p := default [] (m !! p) ++ addrs]> m
}.

(** Unpadded base-32, standard alphabet. *)
Definition bits_of_byte (b : byte) : list bool :=
  let n := Byte.to_N b in
  map (λ i, N.testbit n i) [7; 6; 5; 4; 3; 2; 1; 0]%N.

Definition value_of_bits (bs : list bool) : nat :=
  fold_left (λ acc (b : bool), (2 * acc + (if b then 1 else 0))%nat) bs 0%nat.

Fixpoint groups5 (fuel : nat) (bs : list bool) : list (list bool) :=
  match fuel, bs with
  | O, _ | _, [] => []
  | S fuel', _ =>
    let g := firstn 5 bs in
    (g ++ repeat false (5 - length g)) :: groups5 fuel' (skipn 5 bs)
  end.

Definition encodeStd : string := "ABCDEFGHIJKLMNOPQRSTUVWXYZ234567".

Definition base32_encode (s : bytes) : string :=
  let bs := concat (map bits_of_byte s) in
  string_of_list_ascii
    (map (λ g, default "A"%char (String.get (value_of_bits g) encodeStd))
         (groups5 (length bs) bs)).

(** A record on the wire: each field behind a one-byte length.  It
    stands in for the protobuf encoding. *)
Definition marshal (r : recpb.Record) : bytes * option error :=
  let t := list_byte_of_string (recpb.TimeReceived r) in
  match Byte.of_nat (length (recpb.Key r)), Byte.of_nat (length (recpb.Value r)),
        Byte.of_nat (length t) with
  | Some lk, Some lv, Some lt =>
    (lk :: recpb.Key r ++ lv :: recpb.Value r ++ lt :: t, None)
  | _, _, _ => ([], Some (errors_New "proto: field too long"))
  end.

Definition take_field (b : bytes) : option (bytes * bytes) :=
  match b with
  | [] => None
  | l :: rest =>
    let n := Byte.to_nat l in
    if (length rest <? n)%nat then None else Some (firstn n rest, skipn n rest)
  end.

Definition unmarshal (b : bytes) : recpb.Record * option error :=
  let bad := (recpb.mkRecord [] [] "", Some (errors_New "proto: bad record")) in
  match take_field b with
  | None => bad
  | Some (k, b1) =>
    match take_field b1 with
    | None => bad
    | Some (v, b2) =>
      match take_field b2 with
      | Some (t, []) => (recpb.mkRecord k v (string_of_list_byte t), None)
      | _ => bad
      end
    end
  end.

(** Receipt times are written as a count of nanoseconds in decimal. *)
Definition formatTime (t : Time) : string :=
  DecimalString.NilZero.string_of_int (Z.to_int t).

Definition parseTime (s : string) : Time * option error :=
  match DecimalString.NilZero.int_of_string s with
  | Some i => (Z.of_int i, None)
  | None => (0, Some (errors_New "parsing time"))
  end.

#[global] Instance libraries : Libraries := {
  proto_Marshal := marshal;
  proto_Unmarshal := unmarshal;
  cid_Cast b :=
    match b with
    | [] => (cid.mkCid "", Some (errors_New "cid too short"))
    | _ => (cid.mkCid (string_of_list_byte b), None)
    end;
  base32_RawStdEncoding_EncodeToString := base32_encode;
  ds_NewKey s := ds.mkKey ("/" +:+ s);
  u_ParseRFC3339 := parseTime;
  u_FormatRFC3339 := formatTime;
  PeerInfosToPBPeers net infos :=
    map (λ pi, pb.mkPeer (list_byte_of_string (peer.ID pi)) (peer.Addrs pi)
                 (net (peer.ID pi))) infos;
  PBPeersToPeerInfos pbps :=
    map (λ pbp, peer.mkAddrInfo (string_of_list_byte (pb.Id pbp)) (pb.PeerAddrs pbp)) pbps;
  MaxRecordAge := 36 * 3600 * 1000000000;
  KValue := 20;
  ProviderAddrTTL := 10 * 60 * 1000000000
}.

(** A validator that reads the first byte of a value as its sequence
    number: a value is valid when it has one, and the value with the
    greater number is selected (the first one on a tie). *)
Definition seqno (v : bytes) : N :=
  match v with b :: _ => Byte.to_N b | [] => 0%N end.

Definition seqValidator : record.Validator := {|
  record.Validate _ v :=
    match v with [] => Some (errors_New "empty value") | _ => None end;
  record.Select _ vs :=
    match vs with
    | [a; b] => (if (seqno a <? seqno b)%N then 1 else 0, None)
    | _ => (0, Some (errors_New "can only select between two values"))
    end
|}.

Abbreviation Node := (IpfsDHT MapDatastore (gmap string (list peer_ID))
                              (gmap string (list Multiaddr))).

Definition emptyStore : MapDatastore := mkMap ∅ None None None None.

(** A node called [me] that knows nobody and stores nothing. *)
Definition node0 : Node := {|
  self := "me";
  datastore := emptyStore;
  providers := ∅;
  peerstore := ∅;
  Validator := seqValidator;
  host_Connectedness := λ _, network.NotConnected;
  routingTable := λ _ _ _, None;
  clock := 1000;
  calls := []
|}.

Definition putRequest (key : string) (value : bytes) (received : string) : pb.Message :=
  pb.mkMessage pb.Message_PUT_VALUE 0 (list_byte_of_string key)
    (Some (recpb.mkRecord (list_byte_of_string key) value received)) [] [].

Definition getValue (key : string) : pb.Message :=
  pb.mkMessage pb.Message_GET_VALUE 0 (list_byte_of_string key) None [] [].

Definition findNode (key : string) : pb.Message :=
  pb.mkMessage pb.Message_FIND_NODE 0 (list_byte_of_string key) None [] [].

Definition getProviders (key : string) : pb.Message :=
  pb.mkMessage pb.Message_GET_PROVIDERS 0 (list_byte_of_string key) None [] [].

Definition addProvider (key : string) (peers : list pb.Message_Peer) : pb.Message :=
  pb.mkMessage pb.Message_ADD_PROVIDER 0 (list_byte_of_string key) None [] peers.

(** A datastore that holds one value and never fails. *)
Definition holding (key : bytes) (value : bytes) : MapDatastore :=
  mkMap {[ ds.key_string (convertToDsKey key) := value ]} None None None None.

(** The record stored in [nodeK]: sequence number 2 under the key [k],
    received at time 900. *)
Definition recordK : recpb.Record :=
  recpb.mkRecord (list_byte_of_string "k") [x02] "900".

(** [node0] with [recordK] in its datastore. *)
Definition nodeK : Node := {|
  self := "me";
  datastore := holding (list_byte_of_string "k") (marshal recordK).1;
  providers := ∅;
  peerstore := ∅;
  Validator := seqValidator;
  host_Connectedness := λ _, network.NotConnected;
  routingTable := λ _ _ _, None;
  clock := 1000;
  calls := []
|}.

(** [nodeK] eleven days later. *)
Definition nodeLate : Node := {|
  self := "me";
  datastore := holding (list_byte_of_string "k") (marshal recordK).1;
  providers := ∅;
  peerstore := ∅;
  Validator := seqValidator;
  host_Connectedness := λ _, network.NotConnected;
  routingTable := λ _ _ _, None;
  clock := 1000000000000000;
  calls := []
|}.

(** [node0] with a datastore that refuses every write. *)
Definition nodeFull : Node := {|
  self := "me";
  datastore := mkMap ∅ None None (Some (errors_New "disk full")) None;
  providers := ∅;
  peerstore := ∅;
  Validator := seqValidator;
  host_Connectedness := λ _, network.NotConnected;
  routingTable := λ _ _ _, None;
  clock := 1000;
  calls := []
|}.

Definition addr1 : Multiaddr := [x04; x7f; x00; x00; x01].

(** A node that has addresses for itself, [bob] and [carol], is connected
    to everybody, whose routing table always answers [carol], that stores
    the content [Qm] and knows [alice] as a provider of it. *)
Definition nodeNet : Node := {|
  self := "me";
  datastore := holding (list_byte_of_string "Qm") [x01];
  providers := {[ "Qm" := ["alice"] ]};
  peerstore := {[ "me" := [addr1]; "bob" := [addr1]; "carol" := [addr1] ]};
  Validator := seqValidator;
  host_Connectedness := λ _, network.Connected;
  routingTable := λ _ _ _, Some ["carol"];
  clock := 1000;
  calls := []
|}.

(** What [alice] announces: herself, [mallory], and herself without an
    address. *)
Definition announcement : list pb.Message_Peer :=
  [ pb.mkPeer (list_byte_of_string "alice") [addr1] network.Connected;
    pb.mkPeer (list_byte_of_string "mallory") [addr1] network.Connected;
    pb.mkPeer (list_byte_of_string "alice") [] network.Connected ].

(** A PUT_VALUE whose record is for another key than the message. *)
Definition mismatched : pb.Message :=
  pb.mkMessage pb.Message_PUT_VALUE 0 (list_byte_of_string "k")
    (Some (recpb.mkRecord (list_byte_of_string "other") [x01] "")) [] [].

(** [node0] with a datastore whose reads fail. *)
Definition nodeUnreadable : Node := {|
  self := "me";
  datastore := mkMap ∅ (Some (errors_New "read failed")) None None None;
  providers := ∅;
  peerstore := ∅;
  Validator := seqValidator;
  host_Connectedness := λ _, network.NotConnected;
  routingTable := λ _ _ _, None;
  clock := 1000;
  calls := []
|}.

(** A validator that accepts like [seqValidator] and cannot select. *)
Definition undecided : record.Validator := {|
  record.Validate := record.Validate seqValidator;
  record.Select _ _ := (0, Some (errors_New "cannot select"))
|}.

(** [nodeK] with the validator [undecided]. *)
Definition nodeKUndecided : Node := {|
  self := "me";
  datastore := holding (list_byte_of_string "k") (marshal recordK).1;
  providers := ∅;
  peerstore := ∅;
  Validator := undecided;
  host_Connectedness := λ _, network.NotConnected;
  routingTable := λ _ _ _, None;
  clock := 1000;
  calls := []
|}.

(** A value too long for [marshal]. *)
Definition longValue : bytes := repeat x01 256.

End mem.

(** ** Properties of the handlers *)

Section Properties.
Context {D PM PS : Type}.
Context `{!Datastore D, !ProviderManager PM, !Peerstore PS, !Libraries}.

Implicit Types (d : IpfsDHT D PM PS) (p : peer_ID) (pmes : pb.Message).
Implicit Types (rec existing : recpb.Record).

Local Ltac run :=
  cbv [mbind M_bind mret M_ret ask withLock time_Now time_Since
       datastore_Get datastore_Has datastore_Put datastore_Delete
       providers_GetProviders providers_AddProvider peerstore_AddAddrs
       betterPeersToQuery]; cbn [fst snd].

Lemma newCalls_app d d' (cs : list Call) :
  calls d' = calls d ++ cs → newCalls d d' = cs.
Proof. unfold newCalls. intros ->. apply drop_app_length. Qed.

Lemma stamp_cleanRecord (t : string) rec :
  recpb.setTimeReceived t (cleanRecord rec) = recpb.setTimeReceived t rec.
Proof. reflexivity. Qed.

Lemma bind_ret_run {A B} (m : @M D PM PS A) (x : B) d :
  (_ ← m; mret x) d = (x, (m d).2).
Proof. reflexivity. Qed.

(** Getters are unfolded to the fields they read. *)
Local Ltac names :=
  unfold recpb.GetKey, recpb.GetValue, recpb.GetTimeReceived,
         pb.GetKey, pb.GetRecord, pb.GetType, pb.GetClusterLevel,
         pb.GetProviderPeers in *.

(** Membership of a call in an explicit list of calls. *)
Local Ltac in_calls H :=
  repeat match type of H with
         | _ ∈ _ :: _ => apply elem_of_cons in H as [H | H]; [try discriminate H |]
         | _ ∈ [] => by apply elem_of_nil in H
         end.

(** The goal assumes a call among the new calls of a run that has been
    reduced to its sequence of [logCall]s: list them, and keep the
    cases where the assumed call is one of them. *)
Local Ltac new_calls H :=
  erewrite newCalls_app by (cbn; rewrite <- ?app_assoc; reflexivity);
  intros H; cbn [app] in H; in_calls H.

Local Ltac no_new_calls :=
  rewrite (newCalls_app _ _ []) by (by rewrite app_nil_r);
  let H := fresh in intros H; by apply elem_of_nil in H.

(** C2. A PUT_VALUE whose message carries no record, or whose record's
    key differs from the message's key, fails, and the node is left
    exactly as it was: no call reaches the datastore. *)
Theorem handlePutValue_malformed_fails d p pmes :
  (pb.GetRecord pmes = None ∨
   ∃ rec, pb.GetRecord pmes = Some rec ∧ pb.GetKey pmes ≠ recpb.GetKey rec) →
  ∃ e, handlePutValue p pmes d = ((None, Some e), d).
Proof.
  intros [Hnil | (rec & Hrec & Hne)]; unfold handlePutValue; rewrite ?Hnil, ?Hrec.
  - eexists; reflexivity.
  - unfold bytes_Equal. rewrite bool_decide_eq_false_2 by exact Hne.
    eexists; reflexivity.
Qed.

(** C3. A GET_VALUE on a non-empty key whose stored bytes deserialize to
    a stale record -- its receipt time does not parse, or lies more than
    [MaxRecordAge] in the past -- asks the datastore to delete the key,
    whatever the deletion answers, and succeeds with a response that
    carries no record. *)
Theorem handleGetValue_evicts_stale d p pmes buf rec :
  pb.GetKey pmes ≠ [] →
  ds_Get (datastore d) (convertToDsKey (pb.GetKey pmes)) = (buf, None) →
  proto_Unmarshal buf = (rec, None) →
  ((u_ParseRFC3339 (recpb.GetTimeReceived rec)).2 ≠ None ∨
   MaxRecordAge < time_Sub (clock d) (u_ParseRFC3339 (recpb.GetTimeReceived rec)).1) →
  let dskey := convertToDsKey (pb.GetKey pmes) in
  let r := handleGetValue p pmes d in
  (∃ resp, r.1 = (Some resp, None) ∧ pb.Record_ resp = None) ∧
  datastore r.2 = (ds_Delete (datastore d) dskey).1 ∧
  newCalls d r.2 = [CallGet dskey; CallDelete dskey; CallBetterPeers pmes p CloserPeerCount].
Proof.
  intros Hkey Hget Hun Hstale dskey r. subst r dskey.
  unfold handleGetValue, checkLocalDatastore.
  rewrite bool_decide_eq_false_2
    by (destruct (pb.GetKey pmes); [congruence | discriminate]).
  run. rewrite Hget. cbn. rewrite Hun. cbn.
  destruct (u_ParseRFC3339 (recpb.GetTimeReceived rec)) as [recvtime perr].
  cbn in Hstale.
  assert (Hbad : (if MaxRecordAge <? time_Sub (clock d) recvtime then true
                  else if notNil perr then true else false) = true).
  { destruct Hstale as [Hp | Hage].
    - destruct perr; [| congruence]. by destruct (_ <? _).
    - apply Z.ltb_lt in Hage. cbn in Hage. by rewrite Hage. }
  cbn. rewrite Hbad. cbn.
  split; [| split].
  - destruct (0 <? len _); cbn; eexists; split; reflexivity.
  - by destruct (0 <? len _).
  - apply newCalls_app. destruct (0 <? len _); cbn; by rewrite <- !app_assoc.
Qed.

(** C10. [handleGetValue] fails on every message with an empty key, but
    [handlePutValue] has no such check: a record whose key is empty, as
    is the message's, takes lock stripe 0, and when the validator accepts
    it and nothing is stored under the key yet it is written to the
    datastore. *)
Theorem handlePutValue_accepts_empty_key d p pmes gmes rec data :
  pb.GetKey gmes = [] →
  pb.GetKey pmes = [] → pb.GetRecord pmes = Some rec → recpb.GetKey rec = [] →
  record.Validate (Validator d) "" (recpb.GetValue rec) = None →
  (ds_Get (datastore d) (convertToDsKey [])).2 = Some ErrNotFound →
  let stamped := recpb.setTimeReceived (u_FormatRFC3339 (clock d)) rec in
  proto_Marshal stamped = (data, None) →
  let dskey := convertToDsKey [] in
  let r := handlePutValue p pmes d in
  (∃ e, handleGetValue p gmes d = ((None, Some e), d)) ∧
  indexForLock (recpb.GetKey rec) = x00 ∧
  r.1 = (Some (pb.setRecord (Some stamped) pmes), (ds_Put (datastore d) dskey data).2) ∧
  datastore r.2 = (ds_Put (datastore d) dskey data).1 ∧
  newCalls d r.2 = [CallLock x00; CallGet dskey; CallPut dskey data; CallUnlock x00].
Proof.
  intros Hg Hk Hrec Hrk Hval Hget stamped Hm dskey r. subst r dskey stamped.
  unfold recpb.GetKey, recpb.GetValue, pb.GetKey, pb.GetRecord in *.
  split; [| split].
  { unfold handleGetValue, pb.GetKey. rewrite Hg. cbn. eexists; reflexivity. }
  { by rewrite Hrk. }
  unfold handlePutValue, getRecordFromDatastore, pb.GetKey, pb.GetRecord.
  rewrite Hrec. unfold bytes_Equal, recpb.GetKey, recpb.GetValue. rewrite Hk, Hrk.
  rewrite bool_decide_eq_true_2 by reflexivity.
  run. cbn. rewrite Hrk. cbn. change (string_of_list_byte []) with "". rewrite Hval.
  destruct (ds_Get (datastore d) (convertToDsKey [])) as [buf gerr] eqn:Eget.
  cbn in Hget. subst gerr. cbn.
  rewrite !stamp_cleanRecord, Hm. cbn.
  split; [| split].
  - reflexivity.
  - reflexivity.
  - apply newCalls_app. cbn. by rewrite <- !app_assoc.
Qed.

(** The one write of [handlePutValue]: where it goes, what it carries,
    and what made the handler reach it. *)
Lemma handlePutValue_put_call d p pmes rec k data :
  pb.GetRecord pmes = Some rec →
  CallPut k data ∈ newCalls d (handlePutValue p pmes d).2 →
  k = convertToDsKey (recpb.GetKey rec) ∧
  data = (proto_Marshal (recpb.setTimeReceived (u_FormatRFC3339 (clock d)) rec)).1 ∧
  ((¬ ∃ existing, validExisting d (convertToDsKey (recpb.GetKey rec)) existing) ∨
   ∃ existing, validExisting d (convertToDsKey (recpb.GetKey rec)) existing ∧
     record.Select (Validator d) (string_of_list_byte (recpb.GetKey rec))
       [recpb.GetValue rec; recpb.GetValue existing] = (0, None)).
Proof.
  intros Hrec. names.
  unfold handlePutValue, getRecordFromDatastore. names.
  rewrite Hrec. run. cbn.
  destruct (bytes_Equal _ _); cbn; [| no_new_calls].
  destruct (record.Validate _ _ (recpb.Value rec)) eqn:Hval; cbn; [no_new_calls |].
  destruct (ds_Get _ _) as [buf gerr] eqn:Hget; cbn.
  destruct gerr as [[| msg] |]; cbn.
  - (* nothing stored under the key *)
    rewrite stamp_cleanRecord.
    destruct (proto_Marshal _) as [data' [e |]]; cbn; new_calls Hin.
    injection Hin as -> ->. split; [reflexivity | split; [reflexivity |]].
    left. intros (ex & buf' & Hget' & _). congruence.
  - new_calls Hin.
  - destruct (proto_Unmarshal buf) as [ex [e |]] eqn:Hun; cbn.
    + rewrite stamp_cleanRecord.
      destruct (proto_Marshal _) as [data' [e' |]]; cbn; new_calls Hin.
      injection Hin as -> ->. split; [reflexivity | split; [reflexivity |]].
      left. intros (ex' & buf' & Hget' & Hun' & _). congruence.
    + destruct (record.Validate _ _ (recpb.Value ex)) eqn:Hvalid; cbn.
      * rewrite stamp_cleanRecord.
        destruct (proto_Marshal _) as [data' [e' |]]; cbn; new_calls Hin.
        injection Hin as -> ->. split; [reflexivity | split; [reflexivity |]].
        left. intros (ex' & buf' & Hget' & Hun' & Hv'). names. congruence.
      * destruct (record.Select _ _ _) as [i [e' |]] eqn:Hsel; cbn;
          [new_calls Hin |].
        destruct (i =? 0) eqn:Hi; cbn; [| new_calls Hin].
        apply Z.eqb_eq in Hi. subst i.
        rewrite stamp_cleanRecord.
        destruct (proto_Marshal _) as [data' [e' |]]; cbn; new_calls Hin.
        injection Hin as -> ->. split; [reflexivity | split; [reflexivity |]].
        right. exists ex. split; [| exact Hsel].
        exists buf. names. auto.
Qed.

(** C1 (as amended). For a PUT_VALUE whose record has the message's key
    and passes validation: when a valid record is stored under the key
    and the validator's selection over (new value, existing value)
    answers an index other than 0, the request fails with the error
    [old record] and the datastore is not written.  And for any
    PUT_VALUE carrying a record, the datastore is written only when no
    valid record is stored under the key or the selection answers 0. *)
Theorem handlePutValue_keeps_preferred d p pmes rec :
  pb.GetRecord pmes = Some rec →
  let key := string_of_list_byte (recpb.GetKey rec) in
  let dskey := convertToDsKey (recpb.GetKey rec) in
  let r := handlePutValue p pmes d in
  (∀ existing i,
     pb.GetKey pmes = recpb.GetKey rec →
     record.Validate (Validator d) key (recpb.GetValue rec) = None →
     validExisting d dskey existing →
     record.Select (Validator d) key [recpb.GetValue rec; recpb.GetValue existing]
       = (i, None) →
     i ≠ 0 →
     r.1 = (None, Some (errors_New "old record")) ∧
     datastore r.2 = datastore d ∧
     newCalls d r.2 = [CallLock (indexForLock (recpb.GetKey rec)); CallGet dskey;
                       CallUnlock (indexForLock (recpb.GetKey rec))]) ∧
  (∀ k data,
     CallPut k data ∈ newCalls d r.2 →
     k = dskey ∧
     ((¬ ∃ existing, validExisting d dskey existing) ∨
      ∃ existing, validExisting d dskey existing ∧
        record.Select (Validator d) key [recpb.GetValue rec; recpb.GetValue existing]
          = (0, None))).
Proof.
  intros Hrec key dskey r. subst key dskey r. split.
  - intros existing i Hk Hval (buf & Hget & Hun & Hvalid) Hsel Hi. names.
    unfold handlePutValue, getRecordFromDatastore. names.
    rewrite Hrec. unfold bytes_Equal. rewrite bool_decide_eq_true_2 by exact Hk.
    run. cbn. rewrite Hval. cbn. rewrite Hget. cbn. rewrite Hun. cbn.
    rewrite Hvalid. cbn. rewrite Hsel. cbn.
    apply Z.eqb_neq in Hi. rewrite Hi. cbn.
    split; [reflexivity | split; [reflexivity |]].
    apply newCalls_app. cbn. by rewrite <- !app_assoc.
  - intros k data Hin.
    destruct (handlePutValue_put_call d p pmes rec k data Hrec Hin) as (Hk & _ & Hwhy).
    by split.
Qed.


(** The in-place embedding returns what [handlePutValue] returns and
    leaves the node as [handlePutValue] leaves it. *)
Lemma handlePutValue_inPlace_agrees d p pmes :
  ((handlePutValue_inPlace p pmes d).1.1, (handlePutValue_inPlace p pmes d).2)
    = handlePutValue p pmes d.
Proof.
  unfold handlePutValue_inPlace, handlePutValue, getRecordFromDatastore. names.
  destruct (pb.Record_ pmes) as [rec |]; cbn; [| reflexivity].
  destruct (bytes_Equal _ _); cbn; [| reflexivity].
  run. cbn.
  destruct (record.Validate _ _ (recpb.Value rec)); cbn; [reflexivity |].
  destruct (ds_Get _ _) as [buf [[| msg] |]]; cbn;
    [| | destruct (proto_Unmarshal buf) as [ex [e' |]]; cbn;
         [| destruct (record.Validate _ _ (recpb.Value ex)); cbn;
            [| destruct (record.Select _ _ _) as [i [e' |]]; cbn;
               [| destruct (i =? 0); cbn]]]];
    try (destruct (proto_Marshal _) as [data' [e'' |]]; cbn);
    reflexivity.
Qed.

(** The request message after a PUT_VALUE whose record has the message's
    key: its record has lost the receipt time it came with.  The time is
    empty when the call ended before the stamping, as it does when the
    validator rejects the value, and is the node's time from the stamping
    on, as it is whenever the datastore is written. *)
Lemma handlePutValue_inPlace_message d p pmes rec :
  pb.GetRecord pmes = Some rec →
  pb.GetKey pmes = recpb.GetKey rec →
  let after := (handlePutValue_inPlace p pmes d).1.2 in
  (pb.Record_ after = Some (recpb.setTimeReceived "" rec) ∨
   pb.Record_ after = Some (stamped d rec)) ∧
  (∀ e, record.Validate (Validator d)
          (string_of_list_byte (recpb.GetKey rec)) (recpb.GetValue rec) = Some e →
        pb.Record_ after = Some (recpb.setTimeReceived "" rec)) ∧
  (∀ k data, CallPut k data ∈ newCalls d (handlePutValue_inPlace p pmes d).2 →
             pb.Record_ after = Some (stamped d rec)).
Proof.
  intros Hrec Hk after. subst after. unfold stamped. names.
  unfold handlePutValue_inPlace, getRecordFromDatastore. names.
  rewrite Hrec. unfold bytes_Equal. rewrite bool_decide_eq_true_2 by exact Hk.
  run. cbn.
  destruct (record.Validate _ _ (recpb.Value rec)) as [e0 |]; cbn.
  { split; [by left |]. split; [done |]. intros k data. no_new_calls. }
  destruct (ds_Get _ _) as [buf [[| msg] |]]; cbn;
    [| | destruct (proto_Unmarshal buf) as [ex [e' |]]; cbn;
         [| destruct (record.Validate _ _ (recpb.Value ex)); cbn;
            [| destruct (record.Select _ _ _) as [i [e' |]]; cbn;
               [| destruct (i =? 0); cbn]]]];
    try (destruct (proto_Marshal _) as [data' [e'' |]]; cbn);
    (split; [first [by left | by right] |]);
    (split; [discriminate |]);
    intros k data; new_calls Hin; reflexivity.
Qed.

(** C9. Two PUT_VALUE requests that differ only in the receipt time
    their record carries have the same outcome on the same node: the
    same result and the same node afterwards.  What is written to the
    datastore is the record stamped with the node's clock.  The receipt
    time that came with the request is cleared in the request's own
    record before the validator is asked: with the message as the object
    it is in Go, which returns what [handlePutValue] returns, a request
    whose record has the message's key is left with a record whose
    receipt time is empty or the node's time, empty when the validator
    rejects the value, and the node's time whenever the datastore is
    written. *)
Theorem handlePutValue_ignores_wire_time d p pmes rec (t1 t2 : string) :
  let pmes1 := pb.setRecord (Some (recpb.setTimeReceived t1 rec)) pmes in
  let pmes2 := pb.setRecord (Some (recpb.setTimeReceived t2 rec)) pmes in
  handlePutValue p pmes1 d = handlePutValue p pmes2 d ∧
  (∀ k data,
     CallPut k data ∈ newCalls d (handlePutValue p pmes1 d).2 →
     k = convertToDsKey (recpb.GetKey rec) ∧
     data = (proto_Marshal (recpb.setTimeReceived (u_FormatRFC3339 (clock d)) rec)).1) ∧
  ((handlePutValue_inPlace p pmes1 d).1.1, (handlePutValue_inPlace p pmes1 d).2)
    = handlePutValue p pmes1 d ∧
  (pb.GetKey pmes = recpb.GetKey rec →
   let after := (handlePutValue_inPlace p pmes1 d).1.2 in
   (pb.Record_ after = Some (recpb.setTimeReceived "" rec) ∨
    pb.Record_ after = Some (recpb.setTimeReceived (u_FormatRFC3339 (clock d)) rec)) ∧
   (∀ e, record.Validate (Validator d)
           (string_of_list_byte (recpb.GetKey rec)) (recpb.GetValue rec) = Some e →
         pb.Record_ after = Some (recpb.setTimeReceived "" rec)) ∧
   (∀ k data, CallPut k data ∈ newCalls d (handlePutValue p pmes1 d).2 →
              pb.Record_ after
                = Some (recpb.setTimeReceived (u_FormatRFC3339 (clock d)) rec))).
Proof.
  intros pmes1 pmes2. split; [reflexivity |]. split.
  { intros k data Hin.
    destruct (handlePutValue_put_call d p pmes1 (recpb.setTimeReceived t1 rec) k data
                eq_refl Hin) as (Hk & Hdata & _).
    by split. }
  split; [apply handlePutValue_inPlace_agrees |].
  intros Hkey after. subst after.
  destruct (handlePutValue_inPlace_message d p pmes1 (recpb.setTimeReceived t1 rec)
              eq_refl Hkey) as (Hany & Hrejected & Hwritten).
  split; [exact Hany |]. split; [exact Hrejected |].
  intros k data Hin. apply (Hwritten k data).
  rewrite <- (handlePutValue_inPlace_agrees d p pmes1) in Hin. exact Hin.
Qed.

(** C4. When the write of [handlePutValue] fails, the handler returns
    the error of the datastore together with the message: a response
    and a failure at once. *)
Theorem handlePutValue_put_failure_returns_both d p pmes k data e :
  CallPut k data ∈ newCalls d (handlePutValue p pmes d).2 →
  (ds_Put (datastore d) k data).2 = Some e →
  ∃ resp, (handlePutValue p pmes d).1 = (Some resp, Some e).
Proof.
  names. unfold handlePutValue, getRecordFromDatastore. names.
  destruct (pb.Record_ pmes) as [rec |]; cbn; [| no_new_calls].
  run. cbn.
  destruct (bytes_Equal _ _); cbn; [| no_new_calls].
  destruct (record.Validate _ _ (recpb.Value rec)); cbn; [no_new_calls |].
  destruct (ds_Get _ _) as [buf [[| msg] |]]; cbn.
  - destruct (proto_Marshal _) as [data' [e' |]]; cbn; new_calls Hin.
    injection Hin as -> ->. intros ->. eexists; reflexivity.
  - new_calls Hin.
  - destruct (proto_Unmarshal buf) as [ex [e' |]]; cbn.
    + destruct (proto_Marshal _) as [data' [e'' |]]; cbn; new_calls Hin.
      injection Hin as -> ->. intros ->. eexists; reflexivity.
    + destruct (record.Validate _ _ (recpb.Value ex)); cbn.
      * destruct (proto_Marshal _) as [data' [e'' |]]; cbn; new_calls Hin.
        injection Hin as -> ->. intros ->. eexists; reflexivity.
      * destruct (record.Select _ _ _) as [i [e' |]]; cbn; [new_calls Hin |].
        destruct (i =? 0); cbn; [| new_calls Hin].
        destruct (proto_Marshal _) as [data' [e'' |]]; cbn; new_calls Hin.
        injection Hin as -> ->. intros ->. eexists; reflexivity.
Qed.


(** C5 (as amended). A FIND_NODE whose key is this node's identifier is
    answered without any call on the routing table or another
    collaborator: the closer peers are this node alone when the
    peerstore has an address for it, and nobody otherwise. *)
Theorem handleFindPeer_self d p pmes :
  peer_ID_of_bytes (pb.GetKey pmes) = self d →
  let me := peer.mkAddrInfo (self d) (ps_Addrs (peerstore d) (self d)) in
  let answer := if ps_Addrs (peerstore d) (self d) is [] then [] else [me] in
  handleFindPeer p pmes d =
    ((Some (pb.setCloserPeers (PeerInfosToPBPeers (host_Connectedness d) answer)
              (pb.NewMessage (pb.GetType pmes) [] (pb.GetClusterLevel pmes))),
      None), d).
Proof.
  intros Hself me answer. subst me answer.
  unfold handleFindPeer. run.
  rewrite bool_decide_eq_true_2 by exact Hself. cbn.
  by destruct (ps_Addrs (peerstore d) (self d)).
Qed.

(** C6. A FIND_NODE for another peer than this node asks the routing
    table once and answers from a set [closest] that is what the routing
    table gave, with the target appended exactly when the target is not
    the requester and is connected or connectable.  When the target is
    the requester nothing is appended, whatever the connectivity; so a
    requester that the routing table left out is not in the set. *)
Theorem handleFindPeer_never_appends_requester d p pmes :
  let target := peer_ID_of_bytes (pb.GetKey pmes) in
  let better := routingTable d pmes p CloserPeerCount in
  target ≠ self d →
  ∃ closest,
    handleFindPeer p pmes d =
      ((Some (findPeerResponse d pmes closest), None),
       logCall (CallBetterPeers pmes p CloserPeerCount) d) ∧
    (target = p → closest = better) ∧
    (target ≠ p →
     closest = if connectable (host_Connectedness d target)
               then append better target else better) ∧
    (p ∉ elems better → p ∉ elems closest).
Proof.
  intros target better Hself. subst target better.
  unfold handleFindPeer, findPeerResponse. run.
  rewrite bool_decide_eq_false_2 by exact Hself. cbn.
  destruct (decide (peer_ID_of_bytes (pb.GetKey pmes) = p)) as [Hp | Hp].
  - rewrite bool_decide_eq_false_2 by (intros Hne; by apply Hne). cbn.
    exists (routingTable d pmes p CloserPeerCount).
    split; [by destruct (routingTable _ _ _ _) |].
    split; [done |]. split; [intros Hne; by destruct Hne | done].
  - rewrite bool_decide_eq_true_2 by exact Hp.
    destruct (host_Connectedness d _) eqn:Hconn; cbn.
    1, 4: exists (routingTable d pmes p CloserPeerCount);
      (split; [by destruct (routingTable _ _ _ _) |]);
      (split; [intros Heq; by destruct Hp |]); by split.
    all: exists (append (routingTable d pmes p CloserPeerCount)
                        (peer_ID_of_bytes (pb.GetKey pmes)));
      (split; [reflexivity |]);
      (split; [intros Heq; by destruct Hp |]);
      (split; [done |]);
      intros Hnot; cbn; rewrite elem_of_app, list_elem_of_singleton;
      intros [Hin | Heq]; [by apply Hnot | by apply Hp].
Qed.

(** C7. For a GET_PROVIDERS request whose key parses as a content
    identifier: when the datastore reports the content as present, the
    provider peers of the response are the providers that the provider
    manager knows followed by this node; when the presence check fails
    with an error other than not-found, the request still succeeds, and
    answers with the known providers alone. *)
Theorem handleGetProviders_adds_self d p pmes c :
  cid_Cast (pb.GetKey pmes) = (c, None) →
  let known := pm_GetProviders (providers d) c in
  let wire l :=
    PeerInfosToPBPeers (host_Connectedness d) (pstore_PeerInfos (peerstore d) l) in
  let r := handleGetProviders p pmes d in
  (ds_Has (datastore d) (convertToDsKey (cid.Bytes c)) = (true, None) →
   ∃ resp, r.1 = (Some resp, None) ∧ pb.ProviderPeers resp = wire (known ++ [self d])) ∧
  (∀ has e,
     ds_Has (datastore d) (convertToDsKey (cid.Bytes c)) = (has, Some e) →
     e ≠ ErrNotFound →
     ∃ resp, r.1 = (Some resp, None) ∧
             pb.ProviderPeers resp = if (0 <? length known)%nat then wire known else []).
Proof.
  intros Hc known wire r. subst known wire r.
  unfold handleGetProviders. names. rewrite Hc. run. split.
  - intros Hhas. rewrite Hhas. cbn.
    destruct (pm_GetProviders (providers d) c) as [| q known]; cbn;
      destruct (routingTable d pmes p CloserPeerCount); cbn; eexists; split; reflexivity.
  - intros has e Hhas He. rewrite Hhas. cbn.
    destruct e as [| msg]; [congruence |]. cbn.
    destruct (pm_GetProviders (providers d) c) as [| q known]; cbn;
      destruct (routingTable d pmes p CloserPeerCount); cbn; eexists; split; reflexivity.
Qed.


(** One accepted record: one new provider, one call that adds it. *)
Lemma acceptProvider_effect (c : cid.Cid) p (pi : peer.AddrInfo) d :
  let d' := (acceptProvider c p pi d).2 in
  providers d' = pm_AddProvider (providers d) c p ∧
  ∃ cs, calls d' = calls d ++ cs ∧ List.filter isAddProvider cs = [CallAddProvider c p].
Proof.
  unfold acceptProvider. run.
  destruct (bool_decide (peer.ID pi ≠ self d)); cbn; (split; [reflexivity |]);
    eexists; (split; [rewrite <- ?app_assoc; reflexivity | reflexivity]).
Qed.

(** The loop of [handleAddProvider] does what its accepted records do,
    one after the other. *)
Lemma forRange_providers (c : cid.Cid) p (l : list peer.AddrInfo) d :
  let d' :=
    (forRange l (λ pi,
       if bool_decide (peer.ID pi ≠ p) then mret tt
       else if (length (peer.Addrs pi) <? 1)%nat then mret tt
       else
         dht ← ask;
         _ ← (if bool_decide (peer.ID pi ≠ self dht)
              then peerstore_AddAddrs (peer.ID pi) (peer.Addrs pi) ProviderAddrTTL
              else mret tt);
         providers_AddProvider c p) d).2 in
  let accepted := List.filter (announces p) l in
  d' = (forRange accepted (acceptProvider c p) d).2 ∧
  providers d' = fold_left (λ pm _, pm_AddProvider pm c p) accepted (providers d) ∧
  ∃ cs, calls d' = calls d ++ cs ∧
        List.filter isAddProvider cs = map (λ _, CallAddProvider c p) accepted.
Proof.
  cbv zeta. set (body := λ pi : peer.AddrInfo, _).
  revert d. induction l as [| pi l IH]; intros d.
  - cbn. split; [done |]. split; [done |]. exists []. by rewrite app_nil_r.
  - change (forRange (pi :: l) body d) with (forRange l body (body pi d).2).
    assert (Hbody : body pi d = if announces p pi then acceptProvider c p pi d else (tt, d)).
    { subst body. cbv beta. unfold announces.
      destruct (decide (peer.ID pi = p)) as [Hid | Hid].
      - rewrite (bool_decide_eq_true_2 (peer.ID pi = p)) by exact Hid.
        rewrite (bool_decide_eq_false_2 (peer.ID pi ≠ p))
          by (intros Hne; by apply Hne).
        destruct (peer.Addrs pi) as [| a addrs] eqn:Haddrs; cbn;
          [reflexivity | rewrite <- Haddrs; reflexivity].
      - rewrite (bool_decide_eq_false_2 (peer.ID pi = p)) by exact Hid.
        by rewrite (bool_decide_eq_true_2 (peer.ID pi ≠ p)) by exact Hid. }
    rewrite Hbody. cbn [List.filter].
    destruct (announces p pi); [| apply IH].
    change (forRange (pi :: List.filter (announces p) l) (acceptProvider c p) d)
      with (forRange (List.filter (announces p) l) (acceptProvider c p)
              (acceptProvider c p pi d).2).
    destruct (acceptProvider_effect c p pi d) as (Hprov1 & cs1 & Hcalls1 & Hfilter1).
    destruct (IH (acceptProvider c p pi d).2) as (Hstate & Hprov & cs & Hcalls & Hfilter).
    split; [exact Hstate |].
    split; [rewrite Hprov, Hprov1; reflexivity |].
    exists (cs1 ++ cs). split.
    + by rewrite Hcalls, Hcalls1, <- app_assoc.
    + rewrite List.filter_app, Hfilter1, Hfilter. reflexivity.
Qed.

(** C8. For an ADD_PROVIDER request whose key parses as a content
    identifier [c], the provider records that name another peer than
    the requester [p], or that carry no address, change nothing: the
    node ends as if the request had carried the other records only.
    Each of those, and nothing else, makes one call that adds [p] as a
    provider of [c]. *)
Theorem handleAddProvider_accepts_own_records d p pmes c :
  cid_Cast (pb.GetKey pmes) = (c, None) →
  let pinfos := PBPeersToPeerInfos (pb.GetProviderPeers pmes) in
  let accepted := List.filter (announces p) pinfos in
  let r := handleAddProvider p pmes d in
  r.1 = (None, None) ∧
  r.2 = (forRange accepted (acceptProvider c p) d).2 ∧
  List.filter isAddProvider (newCalls d r.2) = map (λ _, CallAddProvider c p) accepted ∧
  providers r.2 = fold_left (λ pm _, pm_AddProvider pm c p) accepted (providers d).
Proof.
  intros Hc pinfos accepted r. subst pinfos accepted r.
  unfold handleAddProvider. names. rewrite Hc, bind_ret_run. cbn [fst snd].
  destruct (forRange_providers c p (PBPeersToPeerInfos (pb.ProviderPeers pmes)) d)
    as (Hstate & Hprov & cs & Hcalls & Hfilter).
  split; [reflexivity |]. split; [exact Hstate |]. split; [| exact Hprov].
  by rewrite (newCalls_app _ _ cs Hcalls).
Qed.


(** *** More on the read path *)

(** X1. A GET_VALUE on a non-empty key whose stored record deserializes,
    has a receipt time that parses and is at most [MaxRecordAge] old
    (the bound included) answers with that record; the datastore is only
    read, and nothing is deleted. *)
Theorem handleGetValue_returns_fresh d p pmes buf rec (recvtime : Time) :
  pb.GetKey pmes ≠ [] →
  ds_Get (datastore d) (convertToDsKey (pb.GetKey pmes)) = (buf, None) →
  proto_Unmarshal buf = (rec, None) →
  u_ParseRFC3339 (recpb.GetTimeReceived rec) = (recvtime, None) →
  time_Sub (clock d) recvtime ≤ MaxRecordAge →
  let dskey := convertToDsKey (pb.GetKey pmes) in
  let r := handleGetValue p pmes d in
  (∃ resp, r.1 = (Some resp, None) ∧ pb.Record_ resp = Some rec) ∧
  r.2 = logCall (CallBetterPeers pmes p CloserPeerCount) (logCall (CallGet dskey) d).
Proof.
  intros Hkey Hget Hun Hparse Hage dskey r. subst r dskey.
  unfold handleGetValue, checkLocalDatastore.
  rewrite bool_decide_eq_false_2
    by (destruct (pb.GetKey pmes); [congruence | discriminate]).
  run. rewrite Hget. cbn. rewrite Hun. cbn. rewrite Hparse. cbn.
  assert (Hfresh : (MaxRecordAge <? time_Sub (clock d) recvtime) = false)
    by (apply Z.ltb_ge; exact Hage).
  rewrite Hfresh. cbn.
  split.
  - destruct (0 <? len _); cbn; eexists; split; reflexivity.
  - by destruct (0 <? len _).
Qed.

(** X2. Whatever it is asked and whatever it finds, [handleGetValue]
    calls nothing but Get and Delete on the key of the request and the
    routing table: it never writes a value, and it leaves the provider
    manager and the peerstore alone. *)
Theorem handleGetValue_only_reads_or_evicts d p pmes :
  let dskey := convertToDsKey (pb.GetKey pmes) in
  let r := handleGetValue p pmes d in
  (∀ c, c ∈ newCalls d r.2 →
        c = CallGet dskey ∨ c = CallDelete dskey ∨
        c = CallBetterPeers pmes p CloserPeerCount) ∧
  (datastore r.2 = datastore d ∨ datastore r.2 = (ds_Delete (datastore d) dskey).1) ∧
  providers r.2 = providers d ∧ peerstore r.2 = peerstore d.
Proof.
  intros dskey r. subst r dskey.
  unfold handleGetValue, checkLocalDatastore.
  destruct (bool_decide _); cbn.
  { split; [intros c; no_new_calls | auto]. }
  run.
  destruct (ds_Get _ _) as [buf [[| msg] |]]; cbn.
  - split; [| by destruct (0 <? len _); auto].
    intros c. destruct (0 <? len _); cbn; new_calls Hin; auto.
  - split; [| auto]. intros c. new_calls Hin; auto.
  - destruct (proto_Unmarshal buf) as [rec [e |]]; cbn.
    { split; [| auto]. intros c. new_calls Hin; auto. }
    destruct (u_ParseRFC3339 _) as [recvtime perr]; cbn.
    destruct (if MaxRecordAge <? _ then true else _); cbn.
    + split; [| by destruct (0 <? len _); auto].
      intros c. destruct (0 <? len _); cbn; new_calls Hin; auto.
    + split; [| by destruct (0 <? len _); auto].
      intros c. destruct (0 <? len _); cbn; new_calls Hin; auto.
Qed.

(** X3. How [handleGetValue] ends when there is no record to send, for a
    non-empty key: a key the datastore does not have is no failure, the
    response has no record; any other error of the datastore, and bytes
    that do not deserialize, end the request with that error, before the
    routing table is asked. *)
Theorem handleGetValue_without_record d p pmes buf (gerr : option error) :
  pb.GetKey pmes ≠ [] →
  ds_Get (datastore d) (convertToDsKey (pb.GetKey pmes)) = (buf, gerr) →
  let dskey := convertToDsKey (pb.GetKey pmes) in
  let r := handleGetValue p pmes d in
  (gerr = Some ErrNotFound →
   (∃ resp, r.1 = (Some resp, None) ∧ pb.Record_ resp = None) ∧
   r.2 = logCall (CallBetterPeers pmes p CloserPeerCount) (logCall (CallGet dskey) d)) ∧
  (∀ e, gerr = Some e → e ≠ ErrNotFound →
        r = ((None, Some e), logCall (CallGet dskey) d)) ∧
  (∀ rec e, gerr = None → proto_Unmarshal buf = (rec, Some e) →
        r = ((None, Some e), logCall (CallGet dskey) d)).
Proof.
  intros Hkey Hget dskey r. subst r dskey.
  unfold handleGetValue, checkLocalDatastore.
  rewrite bool_decide_eq_false_2
    by (destruct (pb.GetKey pmes); [congruence | discriminate]).
  run. rewrite Hget. cbn.
  split; [| split].
  - intros ->. cbn. split.
    + destruct (0 <? len _); cbn; eexists; split; reflexivity.
    + by destruct (0 <? len _).
  - intros e -> He. destruct e as [| msg]; [congruence |]. reflexivity.
  - intros rec e -> Hun. cbn. rewrite Hun. reflexivity.
Qed.

(** X4. Every response of [handleGetValue] echoes the type, key and
    cluster level of the request, and its closer peers are all the peers
    the routing table answered, in wire form, those without an address
    too. *)
Theorem handleGetValue_response_shape d p pmes resp :
  (handleGetValue p pmes d).1 = (Some resp, None) →
  let closer := routingTable d pmes p CloserPeerCount in
  pb.Typ resp = pb.Typ pmes ∧ pb.Key resp = pb.Key pmes ∧
  pb.ClusterLevel resp = pb.ClusterLevel pmes ∧
  pb.ProviderPeers resp = [] ∧
  pb.CloserPeers resp = if elems closer is [] then [] else wirePeers d (elems closer).
Proof.
  unfold handleGetValue, checkLocalDatastore, wirePeers. names.
  destruct (bool_decide _); cbn; [discriminate |].
  run.
  destruct (ds_Get _ _) as [buf [[| msg] |]]; cbn; [| discriminate |].
  - destruct (routingTable d pmes p CloserPeerCount) as [[| q l] |]; cbn;
      intros [= <-]; by repeat split.
  - destruct (proto_Unmarshal buf) as [rec [e |]]; cbn; [discriminate |].
    destruct (u_ParseRFC3339 _) as [recvtime perr]; cbn.
    destruct (if MaxRecordAge <? _ then true else _); cbn;
      destruct (routingTable d pmes p CloserPeerCount) as [[| q l] |]; cbn;
      intros [= <-]; by repeat split.
Qed.


(** *** More on the write path *)

(** Closes a goal on a run that ended in the write: its result, its
    datastore and its calls, each read off the reduced run. *)
Local Ltac written :=
  split; [done |]; split; [done |];
  apply newCalls_app; cbn; by rewrite <- !app_assoc.

(** What a PUT_VALUE that succeeded has been through. *)
Lemma handlePutValue_success_inv d p pmes resp :
  (handlePutValue p pmes d).1 = (Some resp, None) →
  ∃ rec data,
    pb.GetRecord pmes = Some rec ∧
    pb.GetKey pmes = recpb.GetKey rec ∧
    record.Validate (Validator d)
      (string_of_list_byte (recpb.GetKey rec)) (recpb.GetValue rec) = None ∧
    proto_Marshal (stamped d rec) = (data, None) ∧
    ds_Put (datastore d) (convertToDsKey (recpb.GetKey rec)) data
      = (datastore (handlePutValue p pmes d).2, None) ∧
    resp = pb.setRecord (Some (stamped d rec)) pmes ∧
    newCalls d (handlePutValue p pmes d).2 =
      [CallLock (indexForLock (recpb.GetKey rec));
       CallGet (convertToDsKey (recpb.GetKey rec));
       CallPut (convertToDsKey (recpb.GetKey rec)) data;
       CallUnlock (indexForLock (recpb.GetKey rec))].
Proof.
  unfold stamped. names. unfold handlePutValue, getRecordFromDatastore. names.
  destruct (pb.Record_ pmes) as [rec |]; cbn; [| discriminate].
  unfold bytes_Equal. destruct (decide (pb.Key pmes = recpb.Key rec)) as [Hk | Hk].
  2: { rewrite bool_decide_eq_false_2 by exact Hk. discriminate. }
  rewrite bool_decide_eq_true_2 by exact Hk.
  run. cbn.
  destruct (record.Validate _ _ (recpb.Value rec)) eqn:Hval; cbn; [discriminate |].
  (* the statements that stamp, serialize and write the record *)
  assert (Hwritten : ∀ data perr st',
    proto_Marshal (recpb.setTimeReceived (u_FormatRFC3339 (clock d)) rec) = (data, None) →
    ds_Put (datastore d) (convertToDsKey (recpb.Key rec)) data = (st', perr) →
    (Some (pb.setRecord (Some (recpb.setTimeReceived (u_FormatRFC3339 (clock d)) rec)) pmes),
     perr) = (Some resp, None) →
    ∃ rec0 data0,
      Some rec = Some rec0 ∧ pb.Key pmes = recpb.Key rec0 ∧
      record.Validate (Validator d) (string_of_list_byte (recpb.Key rec0))
        (recpb.Value rec0) = None ∧
      proto_Marshal (recpb.setTimeReceived (u_FormatRFC3339 (clock d)) rec0)
        = (data0, None) ∧
      ds_Put (datastore d) (convertToDsKey (recpb.Key rec0)) data0 = (st', None) ∧
      resp = pb.setRecord
               (Some (recpb.setTimeReceived (u_FormatRFC3339 (clock d)) rec0)) pmes ∧
      newCalls d
        (logCall (CallUnlock (indexForLock (recpb.Key rec)))
           (logCall (CallPut (convertToDsKey (recpb.Key rec)) data)
              (set_datastore st'
                 (logCall (CallGet (convertToDsKey (recpb.Key rec)))
                    (logCall (CallLock (indexForLock (recpb.Key rec))) d))))) =
        [CallLock (indexForLock (recpb.Key rec0)); CallGet (convertToDsKey (recpb.Key rec0));
         CallPut (convertToDsKey (recpb.Key rec0)) data0;
         CallUnlock (indexForLock (recpb.Key rec0))]).
  { intros data perr st' Hm Hput [= <- ->]. exists rec, data.
    repeat split; try done.
    apply newCalls_app. cbn. by rewrite <- !app_assoc. }
  destruct (ds_Get _ _) as [buf [[| msg] |]]; cbn; [| discriminate |].
  - rewrite stamp_cleanRecord.
    destruct (proto_Marshal _) as [data [e |]] eqn:Hm; cbn; [discriminate |].
    destruct (ds_Put _ _ _) as [st' perr] eqn:Hput. cbn. by apply Hwritten.
  - destruct (proto_Unmarshal buf) as [ex [e |]]; cbn.
    { rewrite stamp_cleanRecord.
      destruct (proto_Marshal _) as [data [e' |]] eqn:Hm; cbn; [discriminate |].
      destruct (ds_Put _ _ _) as [st' perr] eqn:Hput. cbn. by apply Hwritten. }
    destruct (record.Validate _ _ (recpb.Value ex)); cbn.
    { rewrite stamp_cleanRecord.
      destruct (proto_Marshal _) as [data [e' |]] eqn:Hm; cbn; [discriminate |].
      destruct (ds_Put _ _ _) as [st' perr] eqn:Hput. cbn. by apply Hwritten. }
    destruct (record.Select _ _ _) as [i [e |]]; cbn; [discriminate |].
    destruct (i =? 0); cbn; [| discriminate].
    rewrite stamp_cleanRecord.
    destruct (proto_Marshal _) as [data [e' |]] eqn:Hm; cbn; [discriminate |].
    destruct (ds_Put _ _ _) as [st' perr] eqn:Hput. cbn. by apply Hwritten.
Qed.


(** X5. A PUT_VALUE answers without error only after the record's key
    matched the message's, the validator accepted the value and the
    datastore took the write: the node's store is then the one that Put
    returned for the record stamped with the node's time, and the
    response is the request with that stamped record. *)
Theorem handlePutValue_success_is_written d p pmes resp :
  (handlePutValue p pmes d).1 = (Some resp, None) →
  ∃ rec,
    pb.GetRecord pmes = Some rec ∧
    pb.GetKey pmes = recpb.GetKey rec ∧
    record.Validate (Validator d)
      (string_of_list_byte (recpb.GetKey rec)) (recpb.GetValue rec) = None ∧
    (proto_Marshal (stamped d rec)).2 = None ∧
    ds_Put (datastore d) (convertToDsKey (recpb.GetKey rec)) (proto_Marshal (stamped d rec)).1
      = (datastore (handlePutValue p pmes d).2, None) ∧
    resp = pb.setRecord (Some (stamped d rec)) pmes.
Proof.
  intros Hres.
  destruct (handlePutValue_success_inv d p pmes resp Hres)
    as (rec & data & Hrec & Hk & Hval & Hm & Hput & Hresp & _).
  exists rec. rewrite Hm. cbn. by repeat split.
Qed.

(** X6. The collaborator calls of one [handlePutValue] are none at all,
    or a Get on the record's key, or that Get followed by one Put on the
    same key, always between taking and releasing the lock stripe of the
    key: it never deletes, never touches another key, and leaves the
    provider manager and the peerstore alone. *)
Theorem handlePutValue_calls d p pmes rec :
  pb.GetRecord pmes = Some rec →
  let stripe := indexForLock (recpb.GetKey rec) in
  let dskey := convertToDsKey (recpb.GetKey rec) in
  let data := (proto_Marshal (stamped d rec)).1 in
  let r := handlePutValue p pmes d in
  (newCalls d r.2 = [] ∨
   newCalls d r.2 = [CallLock stripe; CallGet dskey; CallUnlock stripe] ∨
   newCalls d r.2 = [CallLock stripe; CallGet dskey; CallPut dskey data; CallUnlock stripe]) ∧
  providers r.2 = providers d ∧ peerstore r.2 = peerstore d.
Proof.
  intros Hrec stripe dskey data r. subst stripe dskey data r.
  unfold stamped. names. unfold handlePutValue, getRecordFromDatastore. names.
  rewrite Hrec. run. cbn.
  assert (Hnone : ∀ d0 : IpfsDHT D PM PS, newCalls d0 d0 = [])
    by (intros d0; apply newCalls_app; by rewrite app_nil_r).
  destruct (bytes_Equal _ _); cbn; [| by auto].
  destruct (record.Validate _ _ (recpb.Value rec)); cbn; [by auto |].
  destruct (ds_Get _ _) as [buf [[| msg] |]]; cbn;
    [| | destruct (proto_Unmarshal buf) as [ex [e |]]; cbn;
         [| destruct (record.Validate _ _ (recpb.Value ex)); cbn;
            [| destruct (record.Select _ _ _) as [i [e |]]; cbn;
               [| destruct (i =? 0); cbn]]]];
    rewrite ?stamp_cleanRecord;
    try (destruct (proto_Marshal _) as [data [e' |]]; cbn);
    (split; [| by split]);
    first [ right; left; apply newCalls_app; cbn; by rewrite <- ?app_assoc
          | right; right; apply newCalls_app; cbn; by rewrite <- ?app_assoc ].
Qed.

(** X7. The lock stripe of a key is its trailing byte, so two keys that
    end in the same byte share a stripe, whatever comes before; the empty
    key has stripe 0. *)
Theorem indexForLock_trailing_byte (k1 k2 : bytes) (b : byte) :
  indexForLock (k1 ++ [b]) = b ∧
  indexForLock (k1 ++ [b]) = indexForLock (k2 ++ [b]) ∧
  indexForLock [] = x00.
Proof.
  assert (Hlast : ∀ k : bytes, indexForLock (k ++ [b]) = b).
  { intros k. unfold indexForLock.
    rewrite bool_decide_eq_false_2; [apply List.last_last |].
    rewrite length_app. cbn. lia. }
  split; [apply Hlast |]. split; [by rewrite !Hlast | reflexivity].
Qed.

(** X8. A valid PUT_VALUE goes on to the write whenever nothing valid
    stands against it: when the datastore has no value under the key,
    when the value there does not deserialize or is no longer accepted
    by the validator (it is overwritten), or when the selection answers
    0.  If the stamped record serializes, it is written, and the response
    is the request with the stamped record together with whatever the
    write returned.  If it does not serialize, the request ends with that
    error, and nothing is written. *)
Theorem handlePutValue_persists d p pmes rec buf (gerr : option error) :
  pb.GetRecord pmes = Some rec →
  pb.GetKey pmes = recpb.GetKey rec →
  record.Validate (Validator d)
    (string_of_list_byte (recpb.GetKey rec)) (recpb.GetValue rec) = None →
  ds_Get (datastore d) (convertToDsKey (recpb.GetKey rec)) = (buf, gerr) →
  (gerr = None ∨ gerr = Some ErrNotFound) →
  ((¬ ∃ existing, validExisting d (convertToDsKey (recpb.GetKey rec)) existing) ∨
   ∃ existing, validExisting d (convertToDsKey (recpb.GetKey rec)) existing ∧
     record.Select (Validator d) (string_of_list_byte (recpb.GetKey rec))
       [recpb.GetValue rec; recpb.GetValue existing] = (0, None)) →
  let stripe := indexForLock (recpb.GetKey rec) in
  let dskey := convertToDsKey (recpb.GetKey rec) in
  let data := (proto_Marshal (stamped d rec)).1 in
  let r := handlePutValue p pmes d in
  match (proto_Marshal (stamped d rec)).2 with
  | None =>
    r.1 = (Some (pb.setRecord (Some (stamped d rec)) pmes),
           (ds_Put (datastore d) dskey data).2) ∧
    datastore r.2 = (ds_Put (datastore d) dskey data).1 ∧
    newCalls d r.2 = [CallLock stripe; CallGet dskey; CallPut dskey data; CallUnlock stripe]
  | Some e =>
    r.1 = (None, Some e) ∧
    datastore r.2 = datastore d ∧
    newCalls d r.2 = [CallLock stripe; CallGet dskey; CallUnlock stripe]
  end.
Proof.
  intros Hrec Hk Hval Hget Hgerr Hfree stripe dskey data r. subst stripe dskey data r.
  unfold stamped, validExisting in *. names.
  unfold handlePutValue, getRecordFromDatastore. names.
  rewrite Hrec. unfold bytes_Equal. rewrite bool_decide_eq_true_2 by exact Hk.
  run. cbn. rewrite Hval. cbn. rewrite Hget. cbn.
  destruct Hgerr as [-> | ->]; cbn.
  2: { rewrite stamp_cleanRecord.
       destruct (proto_Marshal _) as [data [e |]]; cbn; written. }
  destruct (proto_Unmarshal buf) as [ex [e |]] eqn:Hun; cbn.
  { rewrite stamp_cleanRecord.
    destruct (proto_Marshal _) as [data [e' |]]; cbn; written. }
  destruct (record.Validate _ _ (recpb.Value ex)) eqn:Hvalid; cbn.
  { rewrite stamp_cleanRecord.
    destruct (proto_Marshal _) as [data [e' |]]; cbn; written. }
  destruct Hfree as [Hno | (existing & (buf' & Hget' & Hun' & _) & Hsel)].
  { destruct Hno. exists ex, buf. auto. }
  assert (existing = ex) as -> by congruence.
  rewrite Hsel. cbn. rewrite stamp_cleanRecord.
  destruct (proto_Marshal _) as [data [e' |]]; cbn; written.
Qed.

(** X9. What stops a PUT_VALUE whose record has the message's key: a
    value the validator rejects ends the request with the validator's
    error before any lock or datastore call; an error of the datastore's
    Get other than not-found and an error of the selection each end it
    with that error; and whenever the request gets as far as serializing
    the stamped record -- Get answered or found nothing, and no valid
    record is stored or the selection answered 0 -- a serialization error
    ends it with that error.  In none of these cases is the datastore
    written. *)
Theorem handlePutValue_stops_on_error d p pmes rec :
  pb.GetRecord pmes = Some rec →
  pb.GetKey pmes = recpb.GetKey rec →
  let key := string_of_list_byte (recpb.GetKey rec) in
  let dskey := convertToDsKey (recpb.GetKey rec) in
  let r := handlePutValue p pmes d in
  (∀ e, record.Validate (Validator d) key (recpb.GetValue rec) = Some e →
        r = ((None, Some e), d)) ∧
  (record.Validate (Validator d) key (recpb.GetValue rec) = None →
   (∀ buf e, ds_Get (datastore d) dskey = (buf, Some e) → e ≠ ErrNotFound →
             r.1 = (None, Some e) ∧ datastore r.2 = datastore d) ∧
   (∀ existing i e,
      validExisting d dskey existing →
      record.Select (Validator d) key [recpb.GetValue rec; recpb.GetValue existing]
        = (i, Some e) →
      r.1 = (None, Some e) ∧ datastore r.2 = datastore d) ∧
   (∀ buf gerr data e,
      ds_Get (datastore d) dskey = (buf, gerr) →
      (gerr = None ∨ gerr = Some ErrNotFound) →
      ((¬ ∃ existing, validExisting d dskey existing) ∨
       ∃ existing, validExisting d dskey existing ∧
         record.Select (Validator d) key [recpb.GetValue rec; recpb.GetValue existing]
           = (0, None)) →
      proto_Marshal (stamped d rec) = (data, Some e) →
      r.1 = (None, Some e) ∧ datastore r.2 = datastore d)).
Proof.
  intros Hrec Hk key dskey r. subst key dskey r.
  unfold stamped, validExisting. names.
  unfold handlePutValue, getRecordFromDatastore. names.
  rewrite Hrec. unfold bytes_Equal. rewrite bool_decide_eq_true_2 by exact Hk.
  run. cbn. split.
  - intros e ->. reflexivity.
  - intros ->. cbn. split; [| split].
    + intros buf e -> He. destruct e as [| msg]; [congruence |]. by cbn.
    + intros existing i e (buf & -> & -> & Hvalid) Hsel. cbn.
      rewrite Hvalid. cbn. rewrite Hsel. by cbn.
    + intros buf gerr data e Hget Hgerr Hfree Hm. rewrite Hget. cbn.
      destruct Hgerr as [-> | ->]; cbn.
      2: { rewrite stamp_cleanRecord, Hm. by cbn. }
      destruct (proto_Unmarshal buf) as [ex [e' |]] eqn:Hun; cbn.
      { rewrite stamp_cleanRecord, Hm. by cbn. }
      destruct (record.Validate _ _ (recpb.Value ex)) eqn:Hvalid; cbn.
      { rewrite stamp_cleanRecord, Hm. by cbn. }
      destruct Hfree as [Hno | (existing & (buf' & Hget' & Hun' & _) & Hsel)].
      { destruct Hno. exists ex, buf. auto. }
      assert (existing = ex) as -> by congruence.
      rewrite Hsel. cbn. rewrite stamp_cleanRecord, Hm. by cbn.
Qed.


(** *** Writing, then reading *)

(** The lookup of the read path on a fresh record. *)
Lemma checkLocalDatastore_fresh d (k : bytes) buf rec (recvtime : Time) :
  ds_Get (datastore d) (convertToDsKey k) = (buf, None) →
  proto_Unmarshal buf = (rec, None) →
  u_ParseRFC3339 (recpb.GetTimeReceived rec) = (recvtime, None) →
  time_Sub (clock d) recvtime ≤ MaxRecordAge →
  checkLocalDatastore k d = ((Some rec, None), logCall (CallGet (convertToDsKey k)) d).
Proof.
  intros Hget Hun Hparse Hage. unfold checkLocalDatastore. run.
  rewrite Hget. cbn. rewrite Hun. cbn. rewrite Hparse. cbn.
  assert (Hfresh : (MaxRecordAge <? time_Sub (clock d) recvtime) = false)
    by (apply Z.ltb_ge; exact Hage).
  by rewrite Hfresh.
Qed.

(** X10. After a PUT_VALUE that succeeded, a GET_VALUE for the same
    non-empty key, at any time no later than [MaxRecordAge] after the
    write, answers with the record that was written, stamped with the
    time of the write: its value is the value that was put.  This holds
    when the datastore gives back what this Put stored, the bytes that
    were written deserialize to the record they came from, and the time
    format parses back to the time it was made from. *)
Theorem handleGetValue_after_handlePutValue d p q pmes gmes rec resp (later : Time) :
  pb.GetRecord pmes = Some rec →
  (handlePutValue p pmes d).1 = (Some resp, None) →
  pb.GetKey gmes = pb.GetKey pmes →
  pb.GetKey pmes ≠ [] →
  let dskey := convertToDsKey (pb.GetKey pmes) in
  let data := (proto_Marshal (stamped d rec)).1 in
  ds_Get (ds_Put (datastore d) dskey data).1 dskey = (data, None) →
  proto_Unmarshal data = (stamped d rec, None) →
  u_ParseRFC3339 (u_FormatRFC3339 (clock d)) = (clock d, None) →
  time_Sub later (clock d) ≤ MaxRecordAge →
  let d' := set_clock later (handlePutValue p pmes d).2 in
  ∃ resp',
    (handleGetValue q gmes d').1 = (Some resp', None) ∧
    pb.Record_ resp' = Some (stamped d rec) ∧
    recpb.GetValue <$> pb.Record_ resp' = Some (recpb.GetValue rec).
Proof.
  intros Hrec Hres Hsame Hkey dskey data Hread Hdecode Htime Hage d'.
  subst dskey data d'.
  destruct (handlePutValue_success_inv d p pmes resp Hres)
    as (rec0 & data & Hrec0 & Hk & _ & Hm & Hput & _ & _).
  assert (rec0 = rec) as -> by congruence.
  rewrite Hm in Hread, Hdecode. cbn [fst] in Hread, Hdecode.
  rewrite Hk, Hput in Hread. cbn [fst] in Hread.
  set (d1 := (handlePutValue p pmes d).2) in *.
  assert (Hlookup : checkLocalDatastore (pb.GetKey gmes) (set_clock later d1)
                    = ((Some (stamped d rec), None),
                       logCall (CallGet (convertToDsKey (pb.GetKey gmes)))
                         (set_clock later d1))).
  { apply (checkLocalDatastore_fresh _ _ data _ (clock d)).
    - rewrite Hsame, Hk. exact Hread.
    - exact Hdecode.
    - exact Htime.
    - exact Hage. }
  unfold handleGetValue.
  rewrite bool_decide_eq_false_2
    by (rewrite Hsame; destruct (pb.GetKey pmes); [congruence | discriminate]).
  cbv [mbind M_bind]. rewrite Hlookup. run. cbn.
  destruct (0 <? len _); cbn; eexists; (split; [reflexivity |]); by split.
Qed.


(** *** More on peer discovery and providers *)

(** The peers that FIND_NODE keeps have an address, the one the
    peerstore has for them. *)
Lemma withAddresses_spec (ps : PS) (l : list peer_ID) (pi : peer.AddrInfo) :
  pi ∈ List.filter (λ pi, (0 <? length (peer.Addrs pi))%nat) (pstore_PeerInfos ps l) →
  peer.Addrs pi ≠ [] ∧ peer.Addrs pi = ps_Addrs ps (peer.ID pi).
Proof.
  rewrite list_elem_of_In, List.filter_In. unfold pstore_PeerInfos.
  rewrite List.in_map_iff. intros [(q & <- & _) Hlen]. cbn in *.
  split; [| reflexivity]. by destruct (ps_Addrs ps q).
Qed.

(** X11. [handleFindPeer] never fails and never writes: it answers every
    request with a response that echoes the type and cluster level, has
    an empty key, no record and no providers, after at most one call, on
    the routing table.  Every closer peer it sends is the wire form of a
    peer for which the peerstore has at least one address. *)
Theorem handleFindPeer_answers d p pmes :
  let r := handleFindPeer p pmes d in
  (∃ resp,
     r.1 = (Some resp, None) ∧
     pb.Typ resp = pb.Typ pmes ∧ pb.Key resp = [] ∧
     pb.ClusterLevel resp = pb.ClusterLevel pmes ∧
     pb.Record_ resp = None ∧ pb.ProviderPeers resp = [] ∧
     (pb.CloserPeers resp = [] ∨
      ∃ infos,
        pb.CloserPeers resp = PeerInfosToPBPeers (host_Connectedness d) infos ∧
        ∀ pi, pi ∈ infos →
              peer.Addrs pi ≠ [] ∧ peer.Addrs pi = ps_Addrs (peerstore d) (peer.ID pi))) ∧
  (r.2 = d ∨ r.2 = logCall (CallBetterPeers pmes p CloserPeerCount) d).
Proof.
  intros r. subst r. unfold handleFindPeer. names. run.
  assert (Hsome : ∀ (l : list peer_ID),
    ∃ resp,
      (Some (pb.setCloserPeers
               (PeerInfosToPBPeers (host_Connectedness d)
                  (List.filter (λ pi, (0 <? length (peer.Addrs pi))%nat)
                     (pstore_PeerInfos (peerstore d) l)))
               (pb.NewMessage (pb.Typ pmes) [] (pb.ClusterLevel pmes))), @None error)
      = (Some resp, None) ∧
      pb.Typ resp = pb.Typ pmes ∧ pb.Key resp = [] ∧
      pb.ClusterLevel resp = pb.ClusterLevel pmes ∧
      pb.Record_ resp = None ∧ pb.ProviderPeers resp = [] ∧
      (pb.CloserPeers resp = [] ∨
       ∃ infos,
         pb.CloserPeers resp = PeerInfosToPBPeers (host_Connectedness d) infos ∧
         ∀ pi, pi ∈ infos →
               peer.Addrs pi ≠ [] ∧ peer.Addrs pi = ps_Addrs (peerstore d) (peer.ID pi))).
  { intros l. eexists. split; [reflexivity |]. cbn. repeat (split; [reflexivity |]).
    right. eexists. split; [reflexivity |]. apply withAddresses_spec. }
  assert (Hnone :
    ∃ resp,
      (Some (pb.NewMessage (pb.Typ pmes) [] (pb.ClusterLevel pmes)), @None error)
      = (Some resp, None) ∧
      pb.Typ resp = pb.Typ pmes ∧ pb.Key resp = [] ∧
      pb.ClusterLevel resp = pb.ClusterLevel pmes ∧
      pb.Record_ resp = None ∧ pb.ProviderPeers resp = [] ∧
      (pb.CloserPeers resp = [] ∨
       ∃ infos,
         pb.CloserPeers resp = PeerInfosToPBPeers (host_Connectedness d) infos ∧
         ∀ pi, pi ∈ infos →
               peer.Addrs pi ≠ [] ∧ peer.Addrs pi = ps_Addrs (peerstore d) (peer.ID pi)))
    by (eexists; split; [reflexivity |]; cbn; repeat (split; [reflexivity |]); by left).
  set (target := peer_ID_of_bytes (pb.Key pmes)).
  destruct (bool_decide (target = self d)); cbn [fst snd].
  { split; [exact (Hsome [self d]) | by left]. }
  destruct (routingTable d pmes p CloserPeerCount) as [l |] eqn:Hrt.
  - destruct (bool_decide (target ≠ p)); cbn [fst snd];
      [destruct (host_Connectedness d target); cbn [fst snd] |];
      (split; [first [exact (Hsome l) | exact (Hsome (l ++ [target]))] | by right]).
  - destruct (bool_decide (target ≠ p)); cbn [fst snd];
      [destruct (host_Connectedness d target); cbn [fst snd] |];
      (split; [first [exact Hnone | exact (Hsome [target])] | by right]).
Qed.

(** X12. A key that does not parse as a content identifier ends
    GET_PROVIDERS and ADD_PROVIDER alike with the parse error, before any
    collaborator is called: the node is exactly as it was. *)
Theorem provider_handlers_reject_bad_cid d p pmes (c : cid.Cid) (e : error) :
  cid_Cast (pb.GetKey pmes) = (c, Some e) →
  handleGetProviders p pmes d = ((None, Some e), d) ∧
  handleAddProvider p pmes d = ((None, Some e), d).
Proof.
  intros Hc. unfold handleGetProviders, handleAddProvider. by rewrite Hc.
Qed.

(** X13. A GET_PROVIDERS whose key parses never fails and only reads:
    its calls are Has, GetProviders and the routing table, in this order,
    and nothing of the node changes but the log of calls.  When the
    datastore says the content is absent, the provider peers are the
    known providers alone, each sent whether or not the peerstore has an
    address for it.  The closer peers are all the peers of the routing
    table's answer, none filtered out. *)
Theorem handleGetProviders_reads_only d p pmes (c : cid.Cid) :
  cid_Cast (pb.GetKey pmes) = (c, None) →
  let known := pm_GetProviders (providers d) c in
  let closer := routingTable d pmes p CloserPeerCount in
  let dskey := convertToDsKey (cid.Bytes c) in
  let r := handleGetProviders p pmes d in
  r.2 = logCall (CallBetterPeers pmes p CloserPeerCount)
          (logCall (CallGetProviders c) (logCall (CallHas dskey) d)) ∧
  ∃ resp,
    r.1 = (Some resp, None) ∧
    pb.Typ resp = pb.Typ pmes ∧ pb.Key resp = pb.Key pmes ∧
    pb.ClusterLevel resp = pb.ClusterLevel pmes ∧ pb.Record_ resp = None ∧
    ((ds_Has (datastore d) dskey).1 = false →
     pb.ProviderPeers resp = if known is [] then [] else wirePeers d known) ∧
    pb.CloserPeers resp = if closer is Some l then wirePeers d l else [].
Proof.
  intros Hc known closer dskey r. subst known closer dskey r.
  unfold handleGetProviders, wirePeers. names. rewrite Hc. run.
  destruct (ds_Has _ _) as [has herr]; cbn.
  split; [reflexivity |].
  destruct (if notNil herr && negb (isNotFound herr) then false else has) eqn:Hposs;
    destruct (pm_GetProviders (providers d) c) as [| q known]; cbn;
    destruct (routingTable d pmes p CloserPeerCount) as [l |]; cbn;
    eexists; (split; [reflexivity |]); cbn;
    do 4 (split; [reflexivity |]); (split; [| reflexivity]);
    intros Hhas; subst has;
    first [ reflexivity
          | destruct (notNil herr && negb (isNotFound herr)); discriminate Hposs ].
Qed.


(** What accepted records do to the peerstore: nothing when the announcer
    is this node, one AddAddrs per record otherwise; the datastore is not
    touched. *)
Lemma forRange_acceptProvider (c : cid.Cid) p (l : list peer.AddrInfo) d :
  Forall (λ pi, peer.ID pi = p) l →
  let d' := (forRange l (acceptProvider c p) d).2 in
  self d' = self d ∧ datastore d' = datastore d ∧
  (p = self d → peerstore d' = peerstore d) ∧
  ∃ cs, calls d' = calls d ++ cs ∧
        Forall (λ c, isAddAddrs c || isAddProvider c = true) cs ∧
        List.filter isAddAddrs cs =
          if bool_decide (p = self d) then []
          else map (λ pi, CallAddAddrs p (peer.Addrs pi) ProviderAddrTTL) l.
Proof.
  cbv zeta. intros Hall. revert d. induction Hall as [| pi l Hid _ IH]; intros d.
  - cbn. repeat (split; [done |]). exists []. rewrite app_nil_r.
    split; [done |]. split; [constructor | by destruct (bool_decide _)].
  - change (forRange (pi :: l) (acceptProvider c p) d)
      with (forRange l (acceptProvider c p) (acceptProvider c p pi d).2).
    set (d1 := (acceptProvider c p pi d).2).
    destruct (IH d1) as (Hself & Hds & Hps & cs & Hcalls & Hkinds & Hfilter).
    assert (Hstep : self d1 = self d ∧ datastore d1 = datastore d ∧
              (p = self d → peerstore d1 = peerstore d) ∧
              ∃ cs1, calls d1 = calls d ++ cs1 ∧
                Forall (λ c, isAddAddrs c || isAddProvider c = true) cs1 ∧
                List.filter isAddAddrs cs1 =
                  if bool_decide (p = self d) then []
                  else [CallAddAddrs p (peer.Addrs pi) ProviderAddrTTL]).
    { subst d1. unfold acceptProvider. run. rewrite Hid.
      destruct (decide (p = self d)) as [Hme | Hme].
      - rewrite (bool_decide_eq_true_2 (p = self d)) by exact Hme.
        rewrite (bool_decide_eq_false_2 (p ≠ self d)) by (intros Hne; by apply Hne).
        cbn. repeat (split; [done |]). eexists. split; [reflexivity |].
        split; [| reflexivity]. by repeat constructor.
      - rewrite (bool_decide_eq_false_2 (p = self d)) by exact Hme.
        rewrite (bool_decide_eq_true_2 (p ≠ self d)) by exact Hme.
        cbn. repeat (split; [done |]). eexists.
        split; [rewrite <- app_assoc; reflexivity |].
        split; [| reflexivity]. by repeat constructor. }
    destruct Hstep as (Hself1 & Hds1 & Hps1 & cs1 & Hcalls1 & Hkinds1 & Hfilter1).
    rewrite Hself1 in *.
    split; [congruence |]. split; [congruence |].
    split; [intros Hme; rewrite Hps, Hps1; done |].
    exists (cs1 ++ cs). split; [by rewrite Hcalls, Hcalls1, <- app_assoc |].
    split; [by apply Forall_app |].
    rewrite List.filter_app, Hfilter1, Hfilter.
    by destruct (bool_decide (p = self d)).
Qed.

(** X14. An ADD_PROVIDER whose key parses never touches the datastore,
    and calls nothing but AddAddrs and AddProvider.  When the requester
    is this node itself its addresses are not added to the peerstore,
    which stays as it was; otherwise each accepted record hands its
    addresses to the peerstore under the requester's identifier, with the
    provider expiry, in the order of the request. *)
Theorem handleAddProvider_addresses d p pmes (c : cid.Cid) :
  cid_Cast (pb.GetKey pmes) = (c, None) →
  let accepted :=
    List.filter (announces p) (PBPeersToPeerInfos (pb.GetProviderPeers pmes)) in
  let r := handleAddProvider p pmes d in
  datastore r.2 = datastore d ∧
  (p = self d → peerstore r.2 = peerstore d) ∧
  Forall (λ c, isAddAddrs c || isAddProvider c = true) (newCalls d r.2) ∧
  List.filter isAddAddrs (newCalls d r.2) =
    if bool_decide (p = self d) then []
    else map (λ pi, CallAddAddrs p (peer.Addrs pi) ProviderAddrTTL) accepted.
Proof.
  intros Hc accepted r. subst accepted r.
  unfold handleAddProvider. names. rewrite Hc, bind_ret_run. cbn [fst snd].
  destruct (forRange_providers c p (PBPeersToPeerInfos (pb.ProviderPeers pmes)) d)
    as (Hstate & _). rewrite Hstate.
  destruct (forRange_acceptProvider c p
              (List.filter (announces p) (PBPeersToPeerInfos (pb.ProviderPeers pmes))) d)
    as (_ & Hds & Hps & cs & Hcalls & Hkinds & Hfilter).
  { apply List.Forall_forall. intros pi Hin. apply List.filter_In in Hin as [_ Hann].
    unfold announces in Hann. apply andb_prop in Hann as [Hid _].
    by apply bool_decide_eq_true in Hid. }
  rewrite (newCalls_app _ _ cs Hcalls). by repeat split.
Qed.


(** *** What the answers of the value handlers imply *)

(** X15. A PUT_VALUE that ends with a failure and no response has not
    written: the datastore is the one it started with, and no Put was
    called. *)
Theorem handlePutValue_failure_writes_nothing d p pmes (e : error) :
  (handlePutValue p pmes d).1 = (None, Some e) →
  datastore (handlePutValue p pmes d).2 = datastore d ∧
  ∀ k data, CallPut k data ∉ newCalls d (handlePutValue p pmes d).2.
Proof.
  unfold handlePutValue, getRecordFromDatastore. names.
  destruct (pb.Record_ pmes) as [rec |]; cbn;
    [| intros _; split; [reflexivity | intros k data; no_new_calls]].
  destruct (bytes_Equal _ _); cbn;
    [| intros _; split; [reflexivity | intros k data; no_new_calls]].
  run. cbn.
  destruct (record.Validate _ _ (recpb.Value rec)); cbn;
    [intros _; split; [reflexivity | intros k data; no_new_calls] |].
  destruct (ds_Get _ _) as [buf [[| msg] |]]; cbn;
    [| | destruct (proto_Unmarshal buf) as [ex [e' |]]; cbn;
         [| destruct (record.Validate _ _ (recpb.Value ex)); cbn;
            [| destruct (record.Select _ _ _) as [i [e' |]]; cbn;
               [| destruct (i =? 0); cbn]]]];
    try (destruct (proto_Marshal _) as [data' [e'' |]]; cbn);
    try discriminate;
    intros _; (split; [reflexivity | intros k data; new_calls Hin]).
Qed.

(** X16. A record that [handleGetValue] sends is never stale: it is what
    the bytes stored under the key deserialize to, its receipt time
    parses and lies at most [MaxRecordAge] in the past, and the datastore
    was left as it was. *)
Theorem handleGetValue_record_is_fresh d p pmes resp rec :
  (handleGetValue p pmes d).1 = (Some resp, None) →
  pb.Record_ resp = Some rec →
  ∃ buf (recvtime : Time),
    ds_Get (datastore d) (convertToDsKey (pb.GetKey pmes)) = (buf, None) ∧
    proto_Unmarshal buf = (rec, None) ∧
    u_ParseRFC3339 (recpb.GetTimeReceived rec) = (recvtime, None) ∧
    time_Sub (clock d) recvtime ≤ MaxRecordAge ∧
    datastore (handleGetValue p pmes d).2 = datastore d.
Proof.
  unfold handleGetValue, checkLocalDatastore. names.
  destruct (bool_decide _); cbn; [discriminate |].
  run.
  destruct (ds_Get _ _) as [buf [[| msg] |]]; cbn; [| discriminate |].
  { destruct (0 <? len _); cbn; intros [= <-]; discriminate. }
  destruct (proto_Unmarshal buf) as [rec' [e |]] eqn:Hun; cbn; [discriminate |].
  destruct (u_ParseRFC3339 _) as [recvtime perr] eqn:Hparse; cbn.
  destruct (MaxRecordAge <? time_Sub (clock d) recvtime) eqn:Hage; cbn.
  { destruct (0 <? len _); cbn; intros [= <-]; discriminate. }
  destruct perr as [e |]; cbn.
  { destruct (0 <? len _); cbn; intros [= <-]; discriminate. }
  apply Z.ltb_ge in Hage.
  destruct (0 <? len _); cbn; intros [= <-]; cbn; intros [= <-];
    exists buf, recvtime; repeat split; done.
Qed.


(** *** One write after another *)

(** The write that loses the selection. *)
Lemma handlePutValue_old_record d p pmes rec existing (i : Z) :
  pb.GetRecord pmes = Some rec →
  pb.GetKey pmes = recpb.GetKey rec →
  record.Validate (Validator d)
    (string_of_list_byte (recpb.GetKey rec)) (recpb.GetValue rec) = None →
  validExisting d (convertToDsKey (recpb.GetKey rec)) existing →
  record.Select (Validator d) (string_of_list_byte (recpb.GetKey rec))
    [recpb.GetValue rec; recpb.GetValue existing] = (i, None) →
  i ≠ 0 →
  (handlePutValue p pmes d).1 = (None, Some (errors_New "old record")) ∧
  datastore (handlePutValue p pmes d).2 = datastore d.
Proof.
  intros Hrec Hk Hval (buf & Hget & Hun & Hvalid) Hsel Hi. names.
  unfold handlePutValue, getRecordFromDatastore. names.
  rewrite Hrec. unfold bytes_Equal. rewrite bool_decide_eq_true_2 by exact Hk.
  run. cbn. rewrite Hval. cbn. rewrite Hget. cbn. rewrite Hun. cbn.
  rewrite Hvalid. cbn. rewrite Hsel. cbn.
  apply Z.eqb_neq in Hi. rewrite Hi. by cbn.
Qed.

(** X17. A record that a PUT_VALUE has written stands against later
    writes for as long as the validator accepts it.  Take any later node
    whose datastore is the one the first write left, whatever its clock
    and its validator have become.  A second PUT_VALUE for the same key,
    whose value the validator now accepts, fails with the error
    [old record] and leaves the datastore as it was, provided the
    validator now still accepts the written value and its selection
    prefers the written value over the new one.  This holds when the
    datastore gives back what the first Put stored and those bytes
    deserialize to the record they came from. *)
Theorem handlePutValue_protects_written
    d (d1 : IpfsDHT D PM PS) p q pmes1 pmes2 rec1 rec2 resp (i : Z) :
  pb.GetRecord pmes1 = Some rec1 →
  (handlePutValue p pmes1 d).1 = (Some resp, None) →
  datastore d1 = datastore (handlePutValue p pmes1 d).2 →
  pb.GetRecord pmes2 = Some rec2 →
  pb.GetKey pmes2 = recpb.GetKey rec2 →
  recpb.GetKey rec2 = recpb.GetKey rec1 →
  let key := string_of_list_byte (recpb.GetKey rec1) in
  let dskey := convertToDsKey (recpb.GetKey rec1) in
  let data := (proto_Marshal (stamped d rec1)).1 in
  record.Validate (Validator d1) key (recpb.GetValue rec2) = None →
  record.Validate (Validator d1) key (recpb.GetValue rec1) = None →
  ds_Get (ds_Put (datastore d) dskey data).1 dskey = (data, None) →
  proto_Unmarshal data = (stamped d rec1, None) →
  record.Select (Validator d1) key [recpb.GetValue rec2; recpb.GetValue rec1] = (i, None) →
  i ≠ 0 →
  (handlePutValue q pmes2 d1).1 = (None, Some (errors_New "old record")) ∧
  datastore (handlePutValue q pmes2 d1).2 = datastore d1.
Proof.
  intros Hrec1 Hres Hstore Hrec2 Hk2 Hsame key dskey data Hval2 Hstill Hread Hdecode Hsel Hi.
  subst key dskey data.
  destruct (handlePutValue_success_inv d p pmes1 resp Hres)
    as (rec0 & data & Hrec0 & _ & _ & Hm & Hput & _ & _).
  assert (rec0 = rec1) as -> by congruence.
  rewrite Hm in Hread, Hdecode. cbn [fst] in Hread, Hdecode.
  rewrite Hput in Hread. cbn [fst] in Hread. rewrite <- Hstore in Hread.
  apply (handlePutValue_old_record d1 q pmes2 rec2 (stamped d rec1) i).
  - exact Hrec2.
  - exact Hk2.
  - rewrite Hsame. exact Hval2.
  - exists data. rewrite Hsame. by repeat split.
  - rewrite Hsame. exact Hsel.
  - exact Hi.
Qed.

End Properties.

(** ** The handlers on concrete requests

    The properties above at nodes and requests of [mem]. *)

(** C2 at a request whose record is for the key [other] while the message
    is for [k]. *)
Lemma handlePutValue_malformed_fails_at_mismatch :
  ∃ e, handlePutValue "peer" mem.mismatched mem.node0 = ((None, Some e), mem.node0).
Proof.
  apply handlePutValue_malformed_fails. right.
  exists (recpb.mkRecord (list_byte_of_string "other") [x01] "").
  split; [reflexivity |]. intros Heq. vm_compute in Heq. discriminate Heq.
Defined.

(** C3 at [nodeLate], whose record of [k] was received long ago. *)
Lemma handleGetValue_evicts_stale_at_nodeLate :
  let dskey := convertToDsKey (pb.GetKey (mem.getValue "k")) in
  let r := handleGetValue "peer" (mem.getValue "k") mem.nodeLate in
  (∃ resp, r.1 = (Some resp, None) ∧ pb.Record_ resp = None) ∧
  datastore r.2 = (ds_Delete (datastore mem.nodeLate) dskey).1 ∧
  newCalls mem.nodeLate r.2 =
    [CallGet dskey; CallDelete dskey; CallBetterPeers (mem.getValue "k") "peer" CloserPeerCount].
Proof.
  apply (handleGetValue_evicts_stale mem.nodeLate "peer" (mem.getValue "k")
           (mem.marshal mem.recordK).1 mem.recordK).
  - intros Heq. vm_compute in Heq. discriminate Heq.
  - vm_compute. reflexivity.
  - vm_compute. reflexivity.
  - right. vm_compute. reflexivity.
Defined.

(** C10 at a PUT_VALUE with an empty key on the empty node. *)
Lemma handlePutValue_accepts_empty_key_at_node0 :
  let pmes := mem.putRequest "" [x01] "" in
  let stamped := recpb.mkRecord [] [x01] "1000" in
  let dskey := convertToDsKey [] in
  let r := handlePutValue "peer" pmes mem.node0 in
  (∃ e, handleGetValue "peer" (mem.getValue "") mem.node0 = ((None, Some e), mem.node0)) ∧
  indexForLock [] = x00 ∧
  r.1 = (Some (pb.setRecord (Some stamped) pmes),
         (ds_Put (datastore mem.node0) dskey (mem.marshal stamped).1).2) ∧
  datastore r.2 = (ds_Put (datastore mem.node0) dskey (mem.marshal stamped).1).1 ∧
  newCalls mem.node0 r.2 =
    [CallLock x00; CallGet dskey; CallPut dskey (mem.marshal stamped).1; CallUnlock x00].
Proof.
  refine (handlePutValue_accepts_empty_key mem.node0 "peer" (mem.putRequest "" [x01] "")
            (mem.getValue "") (recpb.mkRecord [] [x01] "")
            (mem.marshal (recpb.mkRecord [] [x01] "1000")).1 _ _ _ _ _ _ _);
    vm_compute; reflexivity.
Defined.

(** C1 as the specification states it fails at [nodeK], which stores a
    valid record with sequence number 2, for a PUT_VALUE whose value is
    empty: the selection prefers the stored value, and the request fails
    with the validator's error, not with [old record]. *)
Lemma handlePutValue_invalid_record_is_not_old :
  let d := mem.nodeK in
  let pmes := mem.putRequest "k" [] "" in
  pb.GetRecord pmes = Some (recpb.mkRecord (list_byte_of_string "k") [] "") ∧
  validExisting d (convertToDsKey (list_byte_of_string "k")) mem.recordK ∧
  record.Select (Validator d) "k" [[]; recpb.GetValue mem.recordK] = (1, None) ∧
  (handlePutValue "peer" pmes d).1 = (None, Some (errors_New "empty value")) ∧
  (handlePutValue "peer" pmes d).1 ≠ (None, Some (errors_New "old record")).
Proof.
  cbv zeta. split; [reflexivity |]. split.
  { exists (mem.marshal mem.recordK).1. split; [| split]; vm_compute; reflexivity. }
  split; [reflexivity |]. split; [vm_compute; reflexivity |].
  intros Heq. vm_compute in Heq. discriminate Heq.
Qed.

(** C1 (as amended) at [nodeK] for a PUT_VALUE with sequence number 1. *)
Lemma handlePutValue_keeps_preferred_at_nodeK :
  let rec := recpb.mkRecord (list_byte_of_string "k") [x01] "" in
  let dskey := convertToDsKey (list_byte_of_string "k") in
  let r := handlePutValue "peer" (mem.putRequest "k" [x01] "") mem.nodeK in
  r.1 = (None, Some (errors_New "old record")) ∧
  datastore r.2 = datastore mem.nodeK ∧
  newCalls mem.nodeK r.2 = [CallLock "k"%byte; CallGet dskey; CallUnlock "k"%byte].
Proof.
  refine (proj1 (handlePutValue_keeps_preferred mem.nodeK "peer" (mem.putRequest "k" [x01] "")
                   (recpb.mkRecord (list_byte_of_string "k") [x01] "") _)
                mem.recordK 1 _ _ _ _ _).
  - reflexivity.
  - reflexivity.
  - reflexivity.
  - exists (mem.marshal mem.recordK).1. split; [| split]; vm_compute; reflexivity.
  - reflexivity.
  - lia.
Defined.

(** C4 at [nodeFull], whose datastore refuses the write. *)
Lemma handlePutValue_returns_both_at_nodeFull :
  ∃ resp, (handlePutValue "peer" (mem.putRequest "k" [x01] "") mem.nodeFull).1
          = (Some resp, Some (errors_New "disk full")).
Proof.
  refine (handlePutValue_put_failure_returns_both mem.nodeFull "peer"
            (mem.putRequest "k" [x01] "")
            (convertToDsKey (list_byte_of_string "k"))
            (mem.marshal (recpb.mkRecord (list_byte_of_string "k") [x01] "1000")).1
            (errors_New "disk full") _ _).
  - vm_compute. do 2 apply list_elem_of_further. apply list_elem_of_here.
  - vm_compute. reflexivity.
Defined.

(** C5 as the specification states it fails at [node0], whose peerstore
    has no address for the node: the FIND_NODE for the node's own
    identifier is answered with no closer peer at all. *)
Lemma handleFindPeer_self_without_address :
  peer_ID_of_bytes (pb.GetKey (mem.findNode "me")) = self mem.node0 ∧
  ∃ resp, (handleFindPeer "peer" (mem.findNode "me") mem.node0).1 = (Some resp, None) ∧
          pb.CloserPeers resp = [].
Proof.
  split; [reflexivity |]. eexists. split; vm_compute; reflexivity.
Qed.

(** C5 (as amended) at [nodeNet], which has an address for itself. *)
Lemma handleFindPeer_self_at_nodeNet :
  handleFindPeer "peer" (mem.findNode "me") mem.nodeNet =
    ((Some (pb.setCloserPeers
              [pb.mkPeer (list_byte_of_string "me") [mem.addr1] network.Connected]
              (pb.NewMessage pb.Message_FIND_NODE [] 0)),
      None), mem.nodeNet).
Proof.
  refine (handleFindPeer_self mem.nodeNet "peer" (mem.findNode "me") _).
  reflexivity.
Defined.

(** C6 at [nodeNet] for [bob], who is connected, asking for himself:
    the answer set is what the routing table gave, [carol] alone. *)
Lemma handleFindPeer_never_appends_requester_at_nodeNet :
  ∃ closest,
    handleFindPeer "bob" (mem.findNode "bob") mem.nodeNet =
      ((Some (findPeerResponse mem.nodeNet (mem.findNode "bob") closest), None),
       logCall (CallBetterPeers (mem.findNode "bob") "bob" CloserPeerCount) mem.nodeNet) ∧
    closest = Some ["carol"] ∧
    "bob" ∉ elems closest.
Proof.
  assert (Hself : peer_ID_of_bytes (pb.GetKey (mem.findNode "bob")) ≠ self mem.nodeNet).
  { intros Heq. vm_compute in Heq. discriminate Heq. }
  destruct (handleFindPeer_never_appends_requester mem.nodeNet "bob" (mem.findNode "bob") Hself)
    as (closest & Hrun & Hsame & _ & Hout).
  exists closest. split; [exact Hrun |]. split.
  - apply Hsame. reflexivity.
  - apply Hout. cbn. intros Hin. apply list_elem_of_singleton in Hin. discriminate Hin.
Defined.

(** C7 at [nodeNet], which stores the content [Qm] and knows [alice] as
    a provider of it: the provider peers are [alice], for whom the
    peerstore has no address, and then the node itself. *)
Lemma handleGetProviders_adds_self_at_nodeNet :
  ∃ resp,
    (handleGetProviders "peer" (mem.getProviders "Qm") mem.nodeNet).1 = (Some resp, None) ∧
    pb.ProviderPeers resp =
      [pb.mkPeer (list_byte_of_string "alice") [] network.Connected;
       pb.mkPeer (list_byte_of_string "me") [mem.addr1] network.Connected].
Proof.
  refine (proj1 (handleGetProviders_adds_self mem.nodeNet "peer" (mem.getProviders "Qm")
                   (cid.mkCid "Qm") _) _).
  - reflexivity.
  - vm_compute. reflexivity.
Defined.

(** C8 at [nodeNet] for the announcement of [alice]: of the three
    records, the one that names her and has an address is accepted. *)
Lemma handleAddProvider_accepts_own_records_at_nodeNet :
  let d := mem.nodeNet in
  let c := cid.mkCid "Qm" in
  let accepted := [peer.mkAddrInfo "alice" [mem.addr1]] in
  let r := handleAddProvider "alice" (mem.addProvider "Qm" mem.announcement) d in
  r.1 = (None, None) ∧
  r.2 = (forRange accepted (acceptProvider c "alice") d).2 ∧
  List.filter isAddProvider (newCalls d r.2) = [CallAddProvider c "alice"] ∧
  providers r.2 = pm_AddProvider (providers d) c "alice".
Proof.
  refine (handleAddProvider_accepts_own_records mem.nodeNet "alice"
            (mem.addProvider "Qm" mem.announcement) (cid.mkCid "Qm") _).
  reflexivity.
Defined.

(** X1 at [nodeK]: the record of [k], received at 900, read at 1000. *)
Lemma handleGetValue_returns_fresh_at_nodeK :
  let dskey := convertToDsKey (pb.GetKey (mem.getValue "k")) in
  let r := handleGetValue "peer" (mem.getValue "k") mem.nodeK in
  (∃ resp, r.1 = (Some resp, None) ∧ pb.Record_ resp = Some mem.recordK) ∧
  r.2 = logCall (CallBetterPeers (mem.getValue "k") "peer" CloserPeerCount)
          (logCall (CallGet dskey) mem.nodeK).
Proof.
  refine (handleGetValue_returns_fresh mem.nodeK "peer" (mem.getValue "k")
            (mem.marshal mem.recordK).1 mem.recordK 900 _ _ _ _ _).
  - intros Heq. vm_compute in Heq. discriminate Heq.
  - vm_compute. reflexivity.
  - vm_compute. reflexivity.
  - vm_compute. reflexivity.
  - vm_compute. intros Hgt. discriminate Hgt.
Defined.

(** X3 at [node0], which stores nothing: the key [k] is not found. *)
Lemma handleGetValue_without_record_at_node0 :
  let dskey := convertToDsKey (pb.GetKey (mem.getValue "k")) in
  let r := handleGetValue "peer" (mem.getValue "k") mem.node0 in
  (∃ resp, r.1 = (Some resp, None) ∧ pb.Record_ resp = None) ∧
  r.2 = logCall (CallBetterPeers (mem.getValue "k") "peer" CloserPeerCount)
          (logCall (CallGet dskey) mem.node0).
Proof.
  refine (proj1 (handleGetValue_without_record mem.node0 "peer" (mem.getValue "k")
                   [] (Some ErrNotFound) _ _) eq_refl).
  - intros Heq. vm_compute in Heq. discriminate Heq.
  - vm_compute. reflexivity.
Defined.

(** X4 at [nodeNet], whose routing table answers [carol]. *)
Lemma handleGetValue_response_shape_at_nodeNet :
  let resp :=
    pb.setCloserPeers (wirePeers mem.nodeNet ["carol"])
      (pb.NewMessage pb.Message_GET_VALUE (list_byte_of_string "k") 0) in
  pb.Typ resp = pb.Message_GET_VALUE ∧ pb.Key resp = list_byte_of_string "k" ∧
  pb.ClusterLevel resp = 0 ∧ pb.ProviderPeers resp = [] ∧
  pb.CloserPeers resp = wirePeers mem.nodeNet ["carol"].
Proof.
  refine (handleGetValue_response_shape mem.nodeNet "peer" (mem.getValue "k")
            (pb.setCloserPeers (wirePeers mem.nodeNet ["carol"])
               (pb.NewMessage pb.Message_GET_VALUE (list_byte_of_string "k") 0)) _).
  vm_compute. reflexivity.
Defined.

(** X5 at [node0] for a PUT_VALUE of sequence number 1 under [k]. *)
Lemma handlePutValue_success_is_written_at_node0 :
  let pmes := mem.putRequest "k" [x01] "" in
  ∃ rec,
    pb.GetRecord pmes = Some rec ∧
    pb.GetKey pmes = recpb.GetKey rec ∧
    record.Validate (Validator mem.node0)
      (string_of_list_byte (recpb.GetKey rec)) (recpb.GetValue rec) = None ∧
    (proto_Marshal (stamped mem.node0 rec)).2 = None ∧
    ds_Put (datastore mem.node0) (convertToDsKey (recpb.GetKey rec))
      (proto_Marshal (stamped mem.node0 rec)).1
      = (datastore (handlePutValue "peer" pmes mem.node0).2, None) ∧
    pb.setRecord (Some (recpb.mkRecord (list_byte_of_string "k") [x01] "1000")) pmes
      = pb.setRecord (Some (stamped mem.node0 rec)) pmes.
Proof.
  refine (handlePutValue_success_is_written mem.node0 "peer" (mem.putRequest "k" [x01] "")
            (pb.setRecord (Some (recpb.mkRecord (list_byte_of_string "k") [x01] "1000"))
               (mem.putRequest "k" [x01] "")) _).
  vm_compute. reflexivity.
Defined.

(** X6 at [node0] for the same request. *)
Lemma handlePutValue_calls_at_node0 :
  let rec := recpb.mkRecord (list_byte_of_string "k") [x01] "" in
  let stripe := indexForLock (recpb.GetKey rec) in
  let dskey := convertToDsKey (recpb.GetKey rec) in
  let data := (proto_Marshal (stamped mem.node0 rec)).1 in
  let r := handlePutValue "peer" (mem.putRequest "k" [x01] "") mem.node0 in
  (newCalls mem.node0 r.2 = [] ∨
   newCalls mem.node0 r.2 = [CallLock stripe; CallGet dskey; CallUnlock stripe] ∨
   newCalls mem.node0 r.2
     = [CallLock stripe; CallGet dskey; CallPut dskey data; CallUnlock stripe]) ∧
  providers r.2 = providers mem.node0 ∧ peerstore r.2 = peerstore mem.node0.
Proof.
  refine (handlePutValue_calls mem.node0 "peer" (mem.putRequest "k" [x01] "")
            (recpb.mkRecord (list_byte_of_string "k") [x01] "") _).
  reflexivity.
Defined.

(** X8 at [nodeK], which stores sequence number 2, for a PUT_VALUE of
    sequence number 3: the selection answers 0 and the record is
    written. *)
Lemma handlePutValue_persists_at_nodeK :
  let rec := recpb.mkRecord (list_byte_of_string "k") [x03] "" in
  let pmes := mem.putRequest "k" [x03] "" in
  let data := (mem.marshal (stamped mem.nodeK rec)).1 in
  let dskey := convertToDsKey (list_byte_of_string "k") in
  let r := handlePutValue "peer" pmes mem.nodeK in
  r.1 = (Some (pb.setRecord (Some (stamped mem.nodeK rec)) pmes),
         (ds_Put (datastore mem.nodeK) dskey data).2) ∧
  datastore r.2 = (ds_Put (datastore mem.nodeK) dskey data).1 ∧
  newCalls mem.nodeK r.2
    = [CallLock "k"%byte; CallGet dskey; CallPut dskey data; CallUnlock "k"%byte].
Proof.
  refine (handlePutValue_persists mem.nodeK "peer" (mem.putRequest "k" [x03] "")
            (recpb.mkRecord (list_byte_of_string "k") [x03] "")
            (mem.marshal mem.recordK).1 None
            _ _ _ _ _ _).
  - reflexivity.
  - reflexivity.
  - reflexivity.
  - vm_compute. reflexivity.
  - left. reflexivity.
  - right. exists mem.recordK. split; [| reflexivity].
    exists (mem.marshal mem.recordK).1. split; [| split]; vm_compute; reflexivity.
Defined.

(** X9 on four requests for the key [k]: an empty value at [node0], which
    the validator rejects; a valid value at [nodeUnreadable], whose Get
    fails; a valid value at [nodeKUndecided], whose selection fails; and
    at [node0] a value too long to serialize. *)
Lemma handlePutValue_stops_on_error_at_nodes :
  handlePutValue "peer" (mem.putRequest "k" [] "") mem.node0
    = ((None, Some (errors_New "empty value")), mem.node0) ∧
  (let r := handlePutValue "peer" (mem.putRequest "k" [x01] "") mem.nodeUnreadable in
   r.1 = (None, Some (errors_New "read failed")) ∧
   datastore r.2 = datastore mem.nodeUnreadable) ∧
  (let r := handlePutValue "peer" (mem.putRequest "k" [x03] "") mem.nodeKUndecided in
   r.1 = (None, Some (errors_New "cannot select")) ∧
   datastore r.2 = datastore mem.nodeKUndecided) ∧
  (let r := handlePutValue "peer" (mem.putRequest "k" mem.longValue "") mem.node0 in
   r.1 = (None, Some (errors_New "proto: field too long")) ∧
   datastore r.2 = datastore mem.node0).
Proof.
  split; [| split; [| split]].
  - refine (proj1 (handlePutValue_stops_on_error mem.node0 "peer" (mem.putRequest "k" [] "")
                     (recpb.mkRecord (list_byte_of_string "k") [] "") _ _)
                  (errors_New "empty value") _); reflexivity.
  - refine (proj1 (proj2 (handlePutValue_stops_on_error mem.nodeUnreadable "peer"
                            (mem.putRequest "k" [x01] "")
                            (recpb.mkRecord (list_byte_of_string "k") [x01] "") _ _) _)
                  [] (errors_New "read failed") _ _);
      try reflexivity. discriminate.
  - refine (proj1 (proj2 (proj2 (handlePutValue_stops_on_error mem.nodeKUndecided "peer"
                                   (mem.putRequest "k" [x03] "")
                                   (recpb.mkRecord (list_byte_of_string "k") [x03] "")
                                   _ _) _))
                  mem.recordK 0 (errors_New "cannot select") _ _);
      try reflexivity.
    exists (mem.marshal mem.recordK).1. split; [| split]; vm_compute; reflexivity.
  - refine (proj2 (proj2 (proj2 (handlePutValue_stops_on_error mem.node0 "peer"
                                   (mem.putRequest "k" mem.longValue "")
                                   (recpb.mkRecord (list_byte_of_string "k") mem.longValue "")
                                   _ _) _))
                  [] (Some ErrNotFound) [] (errors_New "proto: field too long") _ _ _ _);
      try reflexivity.
    + by right.
    + left. intros (ex & buf & Hget & _). vm_compute in Hget. discriminate Hget.
Defined.

(** X10 at [node0]: sequence number 1 is put under [k] at time 1000 and
    read at time 2000. *)
Lemma handleGetValue_after_handlePutValue_at_node0 :
  let pmes := mem.putRequest "k" [x01] "" in
  let d' := set_clock 2000 (handlePutValue "peer" pmes mem.node0).2 in
  ∃ resp',
    (handleGetValue "reader" (mem.getValue "k") d').1 = (Some resp', None) ∧
    pb.Record_ resp' = Some (recpb.mkRecord (list_byte_of_string "k") [x01] "1000") ∧
    recpb.GetValue <$> pb.Record_ resp' = Some [x01].
Proof.
  refine (handleGetValue_after_handlePutValue mem.node0 "peer" "reader"
            (mem.putRequest "k" [x01] "") (mem.getValue "k")
            (recpb.mkRecord (list_byte_of_string "k") [x01] "")
            (pb.setRecord (Some (recpb.mkRecord (list_byte_of_string "k") [x01] "1000"))
               (mem.putRequest "k" [x01] ""))
            2000 _ _ _ _ _ _ _ _).
  - reflexivity.
  - vm_compute. reflexivity.
  - reflexivity.
  - intros Heq. vm_compute in Heq. discriminate Heq.
  - vm_compute. reflexivity.
  - vm_compute. reflexivity.
  - vm_compute. reflexivity.
  - vm_compute. intros Hgt. discriminate Hgt.
Defined.

(** X12 at a request with an empty key, which is no content identifier. *)
Lemma provider_handlers_reject_bad_cid_at_node0 :
  handleGetProviders "peer" (mem.getProviders "") mem.node0
    = ((None, Some (errors_New "cid too short")), mem.node0) ∧
  handleAddProvider "peer" (mem.addProvider "" mem.announcement) mem.node0
    = ((None, Some (errors_New "cid too short")), mem.node0).
Proof.
  split.
  - refine (proj1 (provider_handlers_reject_bad_cid mem.node0 "peer" (mem.getProviders "")
                     (cid.mkCid "") (errors_New "cid too short") _)).
    reflexivity.
  - refine (proj2 (provider_handlers_reject_bad_cid mem.node0 "peer"
                     (mem.addProvider "" mem.announcement)
                     (cid.mkCid "") (errors_New "cid too short") _)).
    reflexivity.
Defined.

(** X13 at [nodeNet] for the content [Qm]. *)
Lemma handleGetProviders_reads_only_at_nodeNet :
  let d := mem.nodeNet in
  let c := cid.mkCid "Qm" in
  let pmes := mem.getProviders "Qm" in
  let dskey := convertToDsKey (cid.Bytes c) in
  let r := handleGetProviders "peer" pmes d in
  r.2 = logCall (CallBetterPeers pmes "peer" CloserPeerCount)
          (logCall (CallGetProviders c) (logCall (CallHas dskey) d)) ∧
  ∃ resp,
    r.1 = (Some resp, None) ∧
    pb.Typ resp = pb.Typ pmes ∧ pb.Key resp = pb.Key pmes ∧
    pb.ClusterLevel resp = pb.ClusterLevel pmes ∧ pb.Record_ resp = None ∧
    ((ds_Has (datastore d) dskey).1 = false →
     pb.ProviderPeers resp = wirePeers d ["alice"]) ∧
    pb.CloserPeers resp = wirePeers d ["carol"].
Proof.
  refine (handleGetProviders_reads_only mem.nodeNet "peer" (mem.getProviders "Qm")
            (cid.mkCid "Qm") _).
  reflexivity.
Defined.

(** X14 at [nodeNet] for the announcement of [alice]. *)
Lemma handleAddProvider_addresses_at_nodeNet :
  let d := mem.nodeNet in
  let r := handleAddProvider "alice" (mem.addProvider "Qm" mem.announcement) d in
  datastore r.2 = datastore d ∧
  ("alice" = self d → peerstore r.2 = peerstore d) ∧
  Forall (λ c, isAddAddrs c || isAddProvider c = true) (newCalls d r.2) ∧
  List.filter isAddAddrs (newCalls d r.2)
    = [CallAddAddrs "alice" [mem.addr1] ProviderAddrTTL].
Proof.
  refine (handleAddProvider_addresses mem.nodeNet "alice"
            (mem.addProvider "Qm" mem.announcement) (cid.mkCid "Qm") _).
  reflexivity.
Defined.

(** X15 at [nodeK] for a PUT_VALUE of sequence number 1, which loses. *)
Lemma handlePutValue_failure_writes_nothing_at_nodeK :
  let r := handlePutValue "peer" (mem.putRequest "k" [x01] "") mem.nodeK in
  datastore r.2 = datastore mem.nodeK ∧
  ∀ k data, CallPut k data ∉ newCalls mem.nodeK r.2.
Proof.
  refine (handlePutValue_failure_writes_nothing mem.nodeK "peer"
            (mem.putRequest "k" [x01] "") (errors_New "old record") _).
  vm_compute. reflexivity.
Defined.

(** X16 at [nodeK], whose answer for [k] carries [recordK]. *)
Lemma handleGetValue_record_is_fresh_at_nodeK :
  ∃ buf (recvtime : Time),
    ds_Get (datastore mem.nodeK) (convertToDsKey (pb.GetKey (mem.getValue "k")))
      = (buf, None) ∧
    proto_Unmarshal buf = (mem.recordK, None) ∧
    u_ParseRFC3339 (recpb.GetTimeReceived mem.recordK) = (recvtime, None) ∧
    time_Sub (clock mem.nodeK) recvtime ≤ MaxRecordAge ∧
    datastore (handleGetValue "peer" (mem.getValue "k") mem.nodeK).2 = datastore mem.nodeK.
Proof.
  refine (handleGetValue_record_is_fresh mem.nodeK "peer" (mem.getValue "k")
            (pb.setRecord (Some mem.recordK)
               (pb.NewMessage pb.Message_GET_VALUE (list_byte_of_string "k") 0))
            mem.recordK _ _).
  - vm_compute. reflexivity.
  - reflexivity.
Defined.

(** X17 at [node0]: sequence number 2 is put under [k], then, at time
    5000, sequence number 1. *)
Lemma handlePutValue_protects_written_at_node0 :
  let d1 := set_clock 5000 (handlePutValue "peer" (mem.putRequest "k" [x02] "") mem.node0).2 in
  (handlePutValue "other" (mem.putRequest "k" [x01] "") d1).1
    = (None, Some (errors_New "old record")) ∧
  datastore (handlePutValue "other" (mem.putRequest "k" [x01] "") d1).2 = datastore d1.
Proof.
  refine (handlePutValue_protects_written mem.node0
            (set_clock 5000 (handlePutValue "peer" (mem.putRequest "k" [x02] "") mem.node0).2)
            "peer" "other"
            (mem.putRequest "k" [x02] "") (mem.putRequest "k" [x01] "")
            (recpb.mkRecord (list_byte_of_string "k") [x02] "")
            (recpb.mkRecord (list_byte_of_string "k") [x01] "")
            (pb.setRecord (Some (recpb.mkRecord (list_byte_of_string "k") [x02] "1000"))
               (mem.putRequest "k" [x02] ""))
            1 _ _ _ _ _ _ _ _ _ _ _ _).
  - reflexivity.
  - vm_compute. reflexivity.
  - reflexivity.
  - reflexivity.
  - reflexivity.
  - reflexivity.
  - reflexivity.
  - reflexivity.
  - vm_compute. reflexivity.
  - vm_compute. reflexivity.
  - reflexivity.
  - lia.
Defined.
